(** * Student Management System: a shallow embedding of [src/App.js]

    The React component [App] is modelled as a state record (one field per
    [React.useState] cell), one function per handler or effect callback, and
    a list of requests issued to the outside world (the Firestore SDK and
    [window.customConfirm]).  JavaScript objects are finite maps from
    property names to values; JavaScript strings are sequences of code
    units in the range U+0000..U+00FF; JavaScript numbers are the integral
    ones, each written by the integer that its shortest decimal digits spell
    (for a number below 2^53 in size, the number itself). *)

From Stdlib Require Import ZArith NArith Ascii String.
From stdpp Require Import base option list strings gmap pretty.

Open Scope string_scope.

(** ** Strings *)

(** Code units are [ascii] values, read as the Latin-1 block of Unicode. *)
Definition code (c : ascii) : N := N_of_ascii c.

(** The upper-case letters of U+0000..U+00FF: A..Z, and the accented
    capitals U+00C0..U+00DE without the multiplication sign U+00D7. *)
Definition isUpperCase (c : ascii) : bool :=
  let n := code c in
  ((65 <=? n) && (n <=? 90) ||
   (192 <=? n) && (n <=? 222) && negb (n =? 215))%N.

Definition lowerChar (c : ascii) : ascii :=
  if isUpperCase c then ascii_of_N (code c + 32) else c.

(** [String.prototype.toLowerCase]. *)
Fixpoint toLowerCase (s : string) : string :=
  match s with
  | EmptyString => EmptyString
  | String c s' => String (lowerChar c) (toLowerCase s')
  end.

(** [t] starts [s]. *)
Fixpoint startsWith (s t : string) {struct t} : bool :=
  match t, s with
  | EmptyString, _ => true
  | String _ _, EmptyString => false
  | String b t', String a s' => if decide (a = b) then startsWith s' t' else false
  end.

(** [String.prototype.includes]: [t] occurs in [s] as a contiguous block. *)
Fixpoint includes (s t : string) : bool :=
  startsWith s t ||
  match s with
  | EmptyString => false
  | String _ s' => includes s' t
  end.

(** ** Values and objects *)

(** The values a document field can hold, as far as the component looks at
    them.  [JUndefined] is what reading an absent property gives.  Numbers
    are the integral ones; [JNum z] is the number whose shortest decimal
    digits, followed by zeros, spell [z] (every integral number below 2^53
    in size is its own [z]). *)
Inductive jsval : Type :=
| JUndefined
| JNull
| JBool (b : bool)
| JNum (z : Z)
| JStr (s : string).

Global Instance jsval_eq_dec : EqDecision jsval.
Proof. solve_decision. Defined.

(** A plain object with string keys. *)
Abbreviation record := (gmap string jsval).

(** Property read [o.k]: an absent key reads as [undefined]. *)
Definition get (o : record) (k : string) : jsval :=
  match o !! k with
  | Some v => v
  | None => JUndefined
  end.

(** Outcome of an expression that may throw: [TypeError] stands for the
    exception, which in an effect callback nobody catches. *)
Inductive result (A : Type) : Type :=
| Ok (a : A)
| TypeError.
Arguments Ok {A} a.
Arguments TypeError {A}.

Global Instance result_bind : MBind result := λ A B f m,
  match m with
  | Ok a => f a
  | TypeError => TypeError
  end.

(** Truthiness, as used by [!v], [a || b] and [c ? x : y]. *)
Definition truthy (v : jsval) : bool :=
  match v with
  | JUndefined | JNull => false
  | JBool b => b
  | JNum z => negb (z =? 0)%Z
  | JStr s => negb (bool_decide (s = ""))
  end.

(** A digit string without the zeros at its end. *)
Fixpoint dropTrailingZeros (s : string) : string :=
  match s with
  | EmptyString => EmptyString
  | String c s' =>
      match dropTrailingZeros s' with
      | EmptyString => if bool_decide (c = "0"%char) then EmptyString else String c EmptyString
      | t => String c t
      end
  end.

(** [Number::toString] in radix 10 on an integral number: plain decimal
    below 10^21 in size, and from there on the digits, a point after the
    first one, and the exponent ([1e+21], [1.5e+22]). *)
Definition numberToString (z : Z) : string :=
  if (Z.abs z <? 10 ^ 21)%Z then pretty z
  else
    let digits := pretty (Z.abs z) in
    let exponent := pretty (Z.of_nat (String.length digits) - 1)%Z in
    let sign := if (z <? 0)%Z then "-" else "" in
    match dropTrailingZeros digits with
    | EmptyString => pretty z
    | String d EmptyString => sign +:+ String d ("e+" +:+ exponent)
    | String d rest => sign +:+ String d ("." +:+ rest +:+ "e+" +:+ exponent)
    end.

(** The abstract operation ToString, used when a non-string is handed to
    [RegExp.prototype.test]. *)
Definition ToString (v : jsval) : string :=
  match v with
  | JUndefined => "undefined"
  | JNull => "null"
  | JBool true => "true"
  | JBool false => "false"
  | JNum z => numberToString z
  | JStr s => s
  end.

(** Method call [v.toLowerCase()]: only strings have the method; on
    [undefined] and [null] the property read throws, on numbers and booleans
    the property is [undefined] and the call throws. *)
Definition call_toLowerCase (v : jsval) : result string :=
  match v with
  | JStr s => Ok (toLowerCase s)
  | _ => TypeError
  end.

(** Method call [v.toString()]: every value but [undefined] and [null] has
    it. *)
Definition call_toString (v : jsval) : result string :=
  match v with
  | JUndefined | JNull => TypeError
  | _ => Ok (ToString v)
  end.

(** [Array.prototype.filter] with a callback that may throw: the first throw
    aborts the whole call. *)
Fixpoint filterM {A} (p : A → result bool) (l : list A) : result (list A) :=
  match l with
  | [] => Ok []
  | x :: l' =>
      match p x with
      | TypeError => TypeError
      | Ok b =>
          match filterM p l' with
          | TypeError => TypeError
          | Ok rest => Ok (if b then x :: rest else rest)
          end
      end
  end.

(** Short-circuit [a || b] on booleans: [b] is evaluated only when [a] is
    false. *)
Definition orElse (a : result bool) (b : result bool) : result bool :=
  match a with
  | Ok false => b
  | other => other
  end.

(** ** Search and filter logic (App.js, lines 79-87) *)

(** The callback handed to [students.filter]. *)
Definition studentMatches (lowercasedTerm : string) (student : record) : result bool :=
  orElse (n ← call_toLowerCase (get student "name") ; Ok (includes n lowercasedTerm))
 (orElse (e ← call_toLowerCase (get student "email") ; Ok (includes e lowercasedTerm))
         (i ← call_toString (get student "studentId") ; Ok (includes i lowercasedTerm))).

Definition searchFilter (students : list record) (searchTerm : string) : result (list record) :=
  let lowercasedTerm := toLowerCase searchTerm in
  filterM (studentMatches lowercasedTerm) students.

(** ** Regular expressions *)

(** The fragment of the regular-expression language that the component
    uses: character classes, concatenation and the [+] quantifier (here
    [r+] is [r r*]). *)
Inductive regex : Type :=
| Empty
| Eps
| Cls (p : ascii → bool)
| Cat (r1 r2 : regex)
| Alt (r1 r2 : regex)
| Star (r : regex).

Definition Plus (r : regex) : regex := Cat r (Star r).
Definition Chr (c : ascii) : regex := Cls (λ a, bool_decide (a = c)).
Definition AnyChar : regex := Cls (λ _, true).

(** White space as [\s] sees it, within U+0000..U+00FF: tab, line feed,
    vertical tab, form feed, carriage return, space, no-break space. *)
Definition isWhiteSpace (c : ascii) : bool :=
  let n := code c in
  ((9 <=? n) && (n <=? 13) || (n =? 32) || (n =? 160))%N.

(** [\S] *)
Definition NonSpace : regex := Cls (λ c, negb (isWhiteSpace c)).

Fixpoint nullable (r : regex) : bool :=
  match r with
  | Empty => false
  | Eps => true
  | Cls _ => false
  | Cat r1 r2 => nullable r1 && nullable r2
  | Alt r1 r2 => nullable r1 || nullable r2
  | Star _ => true
  end.

(** Derivative of [r] by the code unit [c]. *)
Fixpoint deriv (c : ascii) (r : regex) : regex :=
  match r with
  | Empty => Empty
  | Eps => Empty
  | Cls p => if p c then Eps else Empty
  | Cat r1 r2 =>
      if nullable r1
      then Alt (Cat (deriv c r1) r2) (deriv c r2)
      else Cat (deriv c r1) r2
  | Alt r1 r2 => Alt (deriv c r1) (deriv c r2)
  | Star r' => Cat (deriv c r') (Star r')
  end.

(** [r] matches the whole of [s]. *)
Fixpoint accepts (r : regex) (s : string) : bool :=
  match s with
  | EmptyString => nullable r
  | String c s' => accepts (deriv c r) s'
  end.

(** [RegExp.prototype.test] for a pattern without anchors or flags: some
    block of [s] is matched by [r]. *)
Definition test (r : regex) (s : string) : bool :=
  accepts (Cat (Star AnyChar) (Cat r (Star AnyChar))) s.

(** The literal [/\S+@\S+\.\S+/] of [validateForm]. *)
Definition emailPattern : regex :=
  Cat (Plus NonSpace)
 (Cat (Chr "@")
 (Cat (Plus NonSpace)
 (Cat (Chr ".")
      (Plus NonSpace)))).

(** What it means for [r] to match the whole of [s], independently of the
    matching algorithm. *)
Inductive matches : regex → string → Prop :=
| MEps : matches Eps ""
| MCls p c : p c = true → matches (Cls p) (String c "")
| MCat r1 r2 s1 s2 :
    matches r1 s1 → matches r2 s2 → matches (Cat r1 r2) (s1 +:+ s2)
| MAltL r1 r2 s : matches r1 s → matches (Alt r1 r2) s
| MAltR r1 r2 s : matches r2 s → matches (Alt r1 r2) s
| MStar0 r : matches (Star r) ""
| MStarS r s1 s2 :
    matches r s1 → matches (Star r) s2 → matches (Star r) (s1 +:+ s2).

(** Every code unit of [s] is a non-space one. *)
Fixpoint allNonSpace (s : string) : bool :=
  match s with
  | EmptyString => true
  | String c s' => negb (isWhiteSpace c) && allNonSpace s'
  end.

(** [s] contains an occurrence of the shape [x@y.z] with [x], [y], [z]
    non-empty and free of white space. *)
Definition looksLikeEmail (s : string) : Prop :=
  ∃ pre x y z post,
    s = pre +:+ x +:+ "@" +:+ y +:+ "." +:+ z +:+ post ∧
    x ≠ "" ∧ y ≠ "" ∧ z ≠ "" ∧
    allNonSpace x = true ∧ allNonSpace y = true ∧ allNonSpace z = true.

(** ** Component state (App.js, lines 15-25) *)

(** Handles of the Firebase SDK; the component only stores and passes them
    on. *)
Inductive Firestore : Type := firestoreDb.
Inductive Auth : Type := firebaseAuth.

(** One field per [React.useState] cell.  [error] is [null] or a message. *)
Record AppState : Type := mkState {
  students : list record;
  filteredStudents : list record;
  isModalOpen : bool;
  isEditMode : bool;
  currentStudent : record;
  searchTerm : string;
  isLoading : bool;
  error : option string;
  db : option Firestore;
  auth : option Auth;
  userId : option string
}.

(** The template [{ name: '', email: '', phone: '', studentId: '' }]. *)
Definition emptyStudent : record :=
  {[ "name" := JStr ""; "email" := JStr ""; "phone" := JStr "";
     "studentId" := JStr "" ]}.

Definition initialState : AppState :=
  mkState [] [] false false emptyStudent "" true None None None None.

Definition setStudents (v : list record) (st : AppState) : AppState :=
  mkState v (filteredStudents st) (isModalOpen st) (isEditMode st)
    (currentStudent st) (searchTerm st) (isLoading st) (error st) (db st)
    (auth st) (userId st).

Definition setFilteredStudents (v : list record) (st : AppState) : AppState :=
  mkState (students st) v (isModalOpen st) (isEditMode st)
    (currentStudent st) (searchTerm st) (isLoading st) (error st) (db st)
    (auth st) (userId st).

Definition setIsModalOpen (v : bool) (st : AppState) : AppState :=
  mkState (students st) (filteredStudents st) v (isEditMode st)
    (currentStudent st) (searchTerm st) (isLoading st) (error st) (db st)
    (auth st) (userId st).

Definition setIsEditMode (v : bool) (st : AppState) : AppState :=
  mkState (students st) (filteredStudents st) (isModalOpen st) v
    (currentStudent st) (searchTerm st) (isLoading st) (error st) (db st)
    (auth st) (userId st).

Definition setCurrentStudent (v : record) (st : AppState) : AppState :=
  mkState (students st) (filteredStudents st) (isModalOpen st) (isEditMode st)
    v (searchTerm st) (isLoading st) (error st) (db st) (auth st) (userId st).

Definition setSearchTerm (v : string) (st : AppState) : AppState :=
  mkState (students st) (filteredStudents st) (isModalOpen st) (isEditMode st)
    (currentStudent st) v (isLoading st) (error st) (db st) (auth st)
    (userId st).

Definition setIsLoading (v : bool) (st : AppState) : AppState :=
  mkState (students st) (filteredStudents st) (isModalOpen st) (isEditMode st)
    (currentStudent st) (searchTerm st) v (error st) (db st) (auth st)
    (userId st).

Definition setError (v : option string) (st : AppState) : AppState :=
  mkState (students st) (filteredStudents st) (isModalOpen st) (isEditMode st)
    (currentStudent st) (searchTerm st) (isLoading st) v (db st) (auth st)
    (userId st).

Definition setDb (v : option Firestore) (st : AppState) : AppState :=
  mkState (students st) (filteredStudents st) (isModalOpen st) (isEditMode st)
    (currentStudent st) (searchTerm st) (isLoading st) (error st) v (auth st)
    (userId st).

Definition setAuth (v : option Auth) (st : AppState) : AppState :=
  mkState (students st) (filteredStudents st) (isModalOpen st) (isEditMode st)
    (currentStudent st) (searchTerm st) (isLoading st) (error st) (db st) v
    (userId st).

Definition setUserId (v : option string) (st : AppState) : AppState :=
  mkState (students st) (filteredStudents st) (isModalOpen st) (isEditMode st)
    (currentStudent st) (searchTerm st) (isLoading st) (error st) (db st)
    (auth st) v.

(** ** Requests to the outside world *)

(** What a callback asks of its collaborators.  The three store mutations
    are [AddDoc], [UpdateDoc] and [DeleteDoc]; whether they succeed is
    reported back later (see [event]). *)
Inductive request : Type :=
| OnAuthStateChanged
| SignInAnonymously
| OnSnapshot (path : string)
| CustomConfirm (message : string)
| AddDoc (path : string) (data : record)
| UpdateDoc (path : string) (id : jsval) (data : record)
| DeleteDoc (path : string) (id : jsval).

(** A document of a query snapshot: [doc.id] and [doc.data()]. *)
Record QueryDocumentSnapshot : Type := mkDoc {
  doc_id : string;
  doc_data : record
}.

(** [{ id: doc.id, ...doc.data() }]: the spread comes last, so a field
    named [id] in the data wins over the document id. *)
Definition materialize (doc : QueryDocumentSnapshot) : record :=
  doc_data doc ∪ {[ "id" := JStr (doc_id doc) ]}.

(** ** References of the Firestore SDK *)

(** [collection(db, path)] and [doc(db, path, id)] check their arguments
    and throw on bad ones, before anything is sent.  A path is cut at its
    slashes and the empty pieces are dropped; two slashes in a row are
    refused; a collection has an odd number of pieces and a document an even
    one. *)

(** The number of non-empty pieces between slashes; [inPiece] tells whether
    the code unit before was part of a piece. *)
Fixpoint countPieces (inPiece : bool) (s : string) : nat :=
  match s with
  | EmptyString => 0
  | String c s' =>
      if bool_decide (c = "/"%char) then countPieces false s'
      else ((if inPiece then 0 else 1) + countPieces true s')%nat
  end.

Definition pieces (s : string) : nat := countPieces false s.

Definition hasDoubleSlash (s : string) : bool := includes s "//".

Inductive Reference : Type :=
| CollectionReference (path : string)
| DocumentReference (path : string) (id : string).

(** [collection(db, path)]; [None] when the call throws: no database
    handle, an empty path, two slashes in a row, or an even number of
    pieces. *)
Definition collection (db : option Firestore) (path : string) : option Reference :=
  match db with
  | None => None
  | Some _ =>
      if bool_decide (path = "") || hasDoubleSlash path || Nat.even (pieces path)
      then None
      else Some (CollectionReference path)
  end.

(** [doc(db, path, id)]; [None] when the call throws: no database handle,
    an [id] that is not a string (it has no [indexOf]), an empty path, two
    slashes in a row in either, or an odd number of pieces in all. *)
Definition doc (db : option Firestore) (path : string) (id : jsval) : option Reference :=
  match db, id with
  | Some _, JStr i =>
      if bool_decide (path = "") || hasDoubleSlash path || hasDoubleSlash i
         || Nat.odd (pieces path + pieces i)
      then None
      else Some (DocumentReference path i)
  | _, _ => None
  end.

Section App.

(** The global [__app_id], when the environment defines it. *)
Variable __app_id : option string.

Definition appId : string :=
  match __app_id with
  | Some a => a
  | None => "default-student-app"
  end.

(** The template literal [`artifacts/${appId}/users/${userId}/students`];
    a [null] user id prints as the text [null]. *)
Definition studentsPath (st : AppState) : string :=
  "artifacts/" +:+ appId +:+ "/users/" +:+
  match userId st with Some u => u | None => "null" end +:+ "/students".

(** *** Firebase initialisation and authentication (lines 28-55) *)

Definition initEffect (threw : bool) (st : AppState) : AppState * list request :=
  if threw
  then (setIsLoading false
          (setError (Some "Could not connect to the database. Please check your configuration.") st),
        [])
  else (setAuth (Some firebaseAuth) (setDb (Some firestoreDb) st),
        [OnAuthStateChanged]).

Definition authStateChanged (user : option string) (st : AppState)
  : AppState * list request :=
  match user with
  | Some uid => (setUserId (Some uid) st, [])
  | None => (st, [SignInAnonymously])
  end.

Definition signInRejected (st : AppState) : AppState :=
  setError (Some "Authentication failed. Please refresh the page.") st.

(** *** Real-time data fetching (lines 58-76) *)

(** [collection] is called outside any [try] here: when it throws, the
    effect throws and nobody catches it. *)
Definition dataEffect (st : AppState) : result (AppState * list request) :=
  match db st, userId st with
  | Some _, Some u =>
      if bool_decide (u = "") then Ok (st, [])
      else
        match collection (db st) (studentsPath st) with
        | Some _ => Ok (setIsLoading true st, [OnSnapshot (studentsPath st)])
        | None => TypeError
        end
  | _, _ => Ok (st, [])
  end.

(** The success callback of [onSnapshot]. *)
Definition snapshotNext (docs : list QueryDocumentSnapshot) (st : AppState) : AppState :=
  let studentsList := map materialize docs in
  setIsLoading false (setStudents studentsList st).

(** The error callback of [onSnapshot]. *)
Definition snapshotError (st : AppState) : AppState :=
  setIsLoading false (setError (Some "Failed to fetch student data.") st).

(** *** The search effect (lines 79-87) *)

Definition searchEffect (st : AppState) : result AppState :=
  results ← searchFilter (students st) (searchTerm st);
  Ok (setFilteredStudents results st).

(** *** Modal control and form handling (lines 90-114) *)

Definition openModal (st : AppState) : AppState := setIsModalOpen true st.

Definition closeModal (st : AppState) : AppState :=
  setError None (setCurrentStudent emptyStudent (setIsEditMode false (setIsModalOpen false st))).

Definition handleInputChange (name value : string) (st : AppState) : AppState :=
  setCurrentStudent (<[ name := JStr value ]> (currentStudent st)) st.

Definition requiredMessage : string := "Name, Email, and Student ID are required.".
Definition emailMessage : string := "Please enter a valid email address.".

Definition validateForm (st : AppState) : AppState * bool :=
  let c := currentStudent st in
  if negb (truthy (get c "name")) || negb (truthy (get c "email"))
     || negb (truthy (get c "studentId"))
  then (setError (Some requiredMessage) st, false)
  else if negb (test emailPattern (ToString (get c "email")))
  then (setError (Some emailMessage) st, false)
  else (st, true).

(** *** CRUD operations (lines 117-160) *)

(** Each asynchronous handler is cut at its [await]: the part up to the
    store call, and the part that runs once the call has settled ([ok] tells
    whether the call succeeded).  The reference is built inside the [try],
    before the store call: when building it throws, nothing is sent and the
    [catch] sets the error at once. *)

Definition handleAddStudent (st : AppState) : AppState * list request :=
  let '(st1, valid) := validateForm st in
  if negb valid then (st1, [])
  else
    match collection (db st1) (studentsPath st1) with
    | Some _ => (st1, [AddDoc (studentsPath st1) (currentStudent st1)])
    | None => (setError (Some "Failed to add student. Please try again.") st1, [])
    end.

Definition addStudentSettled (ok : bool) (st : AppState) : AppState :=
  if ok then closeModal st
  else setError (Some "Failed to add student. Please try again.") st.

Definition handleUpdateStudent (st : AppState) : AppState * list request :=
  let '(st1, valid) := validateForm st in
  if negb valid then (st1, [])
  else
    match doc (db st1) (studentsPath st1) (get (currentStudent st1) "id") with
    | Some _ =>
        (st1, [UpdateDoc (studentsPath st1) (get (currentStudent st1) "id")
                 (currentStudent st1)])
    | None => (setError (Some "Failed to update student. Please try again.") st1, [])
    end.

Definition updateStudentSettled (ok : bool) (st : AppState) : AppState :=
  if ok then closeModal st
  else setError (Some "Failed to update student. Please try again.") st.

Definition confirmMessage : string := "Are you sure you want to delete this student?".

(** [customConfirm] is the property [window.customConfirm] at the time of
    the click: [None] when it is not defined, otherwise the answer the
    dialog resolves to. *)
Definition handleDeleteStudent (customConfirm : option (string → jsval))
    (id : jsval) (st : AppState) : AppState * list request :=
  let remove : AppState * list request :=
    match doc (db st) (studentsPath st) id with
    | Some _ => (st, [DeleteDoc (studentsPath st) id])
    | None => (setError (Some "Failed to delete student. Please try again.") st, [])
    end in
  match customConfirm with
  | Some ask =>
      if truthy (ask confirmMessage)
      then (fst remove, CustomConfirm confirmMessage :: snd remove)
      else (st, [CustomConfirm confirmMessage])
  | None => remove
  end.

Definition deleteStudentSettled (ok : bool) (st : AppState) : AppState :=
  if ok then st
  else setError (Some "Failed to delete student. Please try again.") st.

Definition startEdit (student : record) (st : AppState) : AppState :=
  openModal (setCurrentStudent student (setIsEditMode true st)).

(** The submit button: [isEditMode ? handleUpdateStudent : handleAddStudent]. *)
Definition submit (st : AppState) : AppState * list request :=
  if isEditMode st then handleUpdateStudent st else handleAddStudent st.

(** *** The component as a transition system *)

Inductive event : Type :=
| Mounted (threw : bool)
| AuthState (user : option string)
| SignInRejected
| DataEffect
| SnapshotNext (docs : list QueryDocumentSnapshot)
| SnapshotError
| SearchEffect
| SearchInput (value : string)
| AddClicked
| CloseClicked
| InputChanged (name value : string)
| EditClicked (student : record)
| SubmitClicked
| AddSettled (ok : bool)
| UpdateSettled (ok : bool)
| DeleteClicked (customConfirm : option (string → jsval)) (id : jsval)
| DeleteSettled (ok : bool).

Definition step (e : event) (st : AppState) : result (AppState * list request) :=
  match e with
  | Mounted threw => Ok (initEffect threw st)
  | AuthState user => Ok (authStateChanged user st)
  | SignInRejected => Ok (signInRejected st, [])
  | DataEffect => dataEffect st
  | SnapshotNext docs => Ok (snapshotNext docs st, [])
  | SnapshotError => Ok (snapshotError st, [])
  | SearchEffect => st' ← searchEffect st; Ok (st', [])
  | SearchInput value => Ok (setSearchTerm value st, [])
  | AddClicked => Ok (openModal st, [])
  | CloseClicked => Ok (closeModal st, [])
  | InputChanged name value => Ok (handleInputChange name value st, [])
  | EditClicked student => Ok (startEdit student st, [])
  | SubmitClicked => Ok (submit st)
  | AddSettled ok => Ok (addStudentSettled ok st, [])
  | UpdateSettled ok => Ok (updateStudentSettled ok st, [])
  | DeleteClicked customConfirm id => Ok (handleDeleteStudent customConfirm id st)
  | DeleteSettled ok => Ok (deleteStudentSettled ok st, [])
  end.

Definition isSnapshotNext (e : event) : bool :=
  match e with
  | SnapshotNext _ => true
  | _ => false
  end.

(** A sequence of events, with the requests issued along the way. *)
Fixpoint run (es : list event) (st : AppState) : result (AppState * list request) :=
  match es with
  | [] => Ok (st, [])
  | e :: es' =>
      match step e st with
      | TypeError => TypeError
      | Ok (st1, reqs1) =>
          match run es' st1 with
          | TypeError => TypeError
          | Ok (st2, reqs2) => Ok (st2, (reqs1 ++ reqs2)%list)
          end
      end
  end.

End App.

(** ** The search as the specification words it *)

(** [term] is a case-insensitive substring of [field]. *)
Definition containsIgnoreCase (field term : string) : bool :=
  includes (toLowerCase field) (toLowerCase term).

(** The record has [term] as a case-insensitive substring of its name, email
    or studentId, each taken as text. *)
Definition specMatches (term : string) (student : record) : bool :=
  containsIgnoreCase (ToString (get student "name")) term
  || containsIgnoreCase (ToString (get student "email")) term
  || containsIgnoreCase (ToString (get student "studentId")) term.

Definition specSearch (students : list record) (term : string) : list record :=
  List.filter (specMatches term) students.

(** ** Shapes of records *)

Definition isText (v : jsval) : Prop := ∃ s, v = JStr s.

(** Present and non-null. *)
Definition isPresent (v : jsval) : Prop := v ≠ JUndefined ∧ v ≠ JNull.

Definition hasRequiredFields (r : record) : Prop :=
  isPresent (get r "name") ∧ isPresent (get r "email") ∧
  isPresent (get r "studentId").

(** The reading of the filter's partiality in which a record lacking any of
    the three fields always makes the call throw. *)
Definition throwsOnAnyMissingField : Prop :=
  ∀ (L : list record) (T : string) (r : record),
    r ∈ L → ¬ hasRequiredFields r → searchFilter L T = TypeError.

(** When the callback throws on a record, field by field in evaluation
    order: the name must be a string; the email is looked at only when the
    name does not contain the term and must then be a string; the studentId
    is looked at only when neither contains it and must then be present and
    non-null. *)
Definition failsOn (lowercasedTerm : string) (r : record) : bool :=
  match get r "name" with
  | JStr n =>
      negb (includes (toLowerCase n) lowercasedTerm) &&
      match get r "email" with
      | JStr e =>
          negb (includes (toLowerCase e) lowercasedTerm) &&
          match get r "studentId" with
          | JUndefined | JNull => true
          | _ => false
          end
      | _ => true
      end
  | _ => true
  end.

(** The record of the specification's search scenario. *)
Definition ana : record :=
  {[ "id" := JStr "1"; "name" := JStr "Ana Li"; "email" := JStr "ana@x.com";
     "studentId" := JStr "S100" ]}.

(** A document that carries a name only. *)
Definition nameOnly : record := {[ "name" := JStr "Ana Li" ]}.

(** The two rejected forms of the specification's scenarios. *)
Definition blankName : record :=
  {[ "name" := JStr ""; "email" := JStr "a@b.com"; "phone" := JStr "";
     "studentId" := JStr "S1" ]}.

Definition badEmail : record :=
  {[ "name" := JStr "Bo"; "email" := JStr "not-an-email"; "phone" := JStr "";
     "studentId" := JStr "S2" ]}.

(** A form with no name and a malformed email. *)
Definition blankNameBadEmail : record :=
  {[ "name" := JStr ""; "email" := JStr "not-an-email"; "phone" := JStr "";
     "studentId" := JStr "S3" ]}.

(** A signed-in session showing one record, the modal open on [form]. *)
Definition sessionWith (form : record) : AppState :=
  mkState [ana] [ana] true false form "" false None (Some firestoreDb)
    (Some firebaseAuth) (Some "u1").

(** ** The rendered page (App.js, lines 163-311) *)

(** The main content is a chain of two conditionals:
    [isLoading ? ... : students.length === 0 ? ... : <table>]. *)
Inductive body : Type :=
| LoadingIndicator
| NoStudentsFound
| StudentTable (rows : list record).

Definition mainBody (st : AppState) : body :=
  if isLoading st then LoadingIndicator
  else if (length (students st) =? 0)%nat then NoStudentsFound
  else StudentTable (filteredStudents st).

(** [filteredStudents.length === 0 && students.length > 0 && ...]: the
    notice below the table; it does not look at [isLoading]. *)
Definition noMatchingNotice (st : AppState) : bool :=
  (length (filteredStudents st) =? 0)%nat && (0 <? length (students st))%nat.

(** The rows that carry an edit and a delete button. *)
Definition rowsShown (st : AppState) : list record :=
  match mainBody st with
  | StudentTable rows => rows
  | _ => []
  end.

(** [{error && <div ...>{error}</div>}] sits inside [{isModalOpen && ...}]:
    the message is on screen only while the modal is. *)
Definition errorBanner (st : AppState) : option string :=
  if isModalOpen st then
    match error st with
    | Some m => if bool_decide (m = "") then None else Some m
    | None => None
    end
  else None.

(** The [name] attributes of the four inputs of the form. *)
Definition formFields : list string := ["name"; "email"; "studentId"; "phone"].

(** An event that comes from a control is possible only while the control
    is rendered; callbacks of the SDK can come at any time. *)
Definition enabled (e : event) (st : AppState) : bool :=
  match e with
  | CloseClicked | SubmitClicked => isModalOpen st
  | InputChanged name _ => isModalOpen st && bool_decide (name ∈ formFields)
  | EditClicked student => bool_decide (student ∈ rowsShown st)
  | DeleteClicked _ id =>
      existsb (λ student, bool_decide (get student "id" = id)) (rowsShown st)
  | _ => true
  end.

(** ** Bookkeeping on requests and events *)

Definition isMutation (r : request) : bool :=
  match r with
  | AddDoc _ _ | UpdateDoc _ _ _ | DeleteDoc _ _ => true
  | _ => false
  end.

(** The collection a request addresses. *)
Definition pathOf (r : request) : option string :=
  match r with
  | OnSnapshot p | AddDoc p _ | UpdateDoc p _ _ | DeleteDoc p _ => Some p
  | _ => None
  end.

(** The two clicks from which a store mutation can come. *)
Definition isMutatingClick (e : event) : bool :=
  match e with
  | SubmitClicked | DeleteClicked _ _ => true
  | _ => false
  end.

(** Opening the form and typing into it. *)
Definition isFormEvent (e : event) : bool :=
  match e with
  | AddClicked | EditClicked _ | InputChanged _ _ => true
  | _ => false
  end.

(** The events that end in [closeModal]. *)
Definition closesModal (e : event) : bool :=
  match e with
  | CloseClicked | AddSettled true | UpdateSettled true => true
  | _ => false
  end.

(** A series of keystroke events, oldest first. *)
Definition typeAll (edits : list (string * string)) (st : AppState) : AppState :=
  fold_left (λ s kv, handleInputChange kv.1 kv.2 s) edits st.

Fixpoint allUpperCase (s : string) : bool :=
  match s with
  | EmptyString => true
  | String c s' => isUpperCase c && allUpperCase s'
  end.

Section Reachability.

Variable __app_id : option string.

(** The states the component can be in: from the initial one, by events
    that are possible in the state they occur in. *)
Inductive reachable : AppState → Prop :=
| reachable_init : reachable initialState
| reachable_step e st st' reqs :
    reachable st → enabled e st = true →
    step __app_id e st = Ok (st', reqs) → reachable st'.

End Reachability.

(** A record whose studentId is in capitals. *)
Definition capitalId : record :=
  {[ "name" := JStr "Bo"; "email" := JStr "bo@x.com"; "studentId" := JStr "ABC" ]}.

(** The form as filled in with the four given texts. *)
Definition filledForm (n e i ph : string) : record :=
  {[ "name" := JStr n; "email" := JStr e; "phone" := JStr ph;
     "studentId" := JStr i ]}.

(** Opening the create form, typing the four fields, pressing the button. *)
Definition createScript (n e i ph : string) : list event :=
  [ AddClicked; InputChanged "name" n; InputChanged "email" e;
    InputChanged "studentId" i; InputChanged "phone" ph; SubmitClicked ].

(** A record whose studentId has no capital letter. *)
Definition lowerId : record :=
  {[ "name" := JStr "Bo Li"; "email" := JStr "bo@x.com";
     "studentId" := JStr "s-200" ]}.

(** * Properties *)

(** ** Strings *)

Lemma append_nil_l (s : string) : "" +:+ s = s.
Proof. reflexivity. Qed.

Lemma append_cons (c : ascii) (s t : string) :
  String c s +:+ t = String c (s +:+ t).
Proof. reflexivity. Qed.

Lemma append_nil_r (s : string) : s +:+ "" = s.
Proof.
  induction s as [|c s IH]; [done|]. by rewrite append_cons, IH.
Qed.

Lemma append_assoc (a b c : string) : (a +:+ b) +:+ c = a +:+ b +:+ c.
Proof.
  induction a as [|x a IH]; [done|]. by rewrite !append_cons, IH.
Qed.

Lemma append_eq_nil (a b : string) : a +:+ b = "" → a = "" ∧ b = "".
Proof. destruct a; [done | rewrite append_cons; discriminate]. Qed.

Lemma startsWith_nil (s : string) : startsWith s "" = true.
Proof. by destruct s. Qed.

Lemma includes_nil (s : string) : includes s "" = true.
Proof. destruct s; simpl; done. Qed.

Lemma startsWith_spec (s t : string) :
  startsWith s t = true ↔ ∃ post, s = t +:+ post.
Proof.
  revert s. induction t as [|b t IH]; intros s; simpl.
  - split; [intros _; by exists s | done].
  - destruct s as [|a s].
    + split; [done | intros [post H]; discriminate].
    + case_decide as Hab.
      * subst b. rewrite IH. split; intros [post H]; exists post.
        -- by rewrite append_cons, H.
        -- rewrite append_cons in H. by injection H.
      * split; [done|]. intros [post H]. rewrite append_cons in H.
        injection H. congruence.
Qed.

(** [includes] decides the substring relation. *)
Lemma includes_spec (s t : string) :
  includes s t = true ↔ ∃ pre post, s = pre +:+ t +:+ post.
Proof.
  induction s as [|a s IH].
  - simpl. rewrite orb_false_r, startsWith_spec. split.
    + intros [post H]. by exists "", post.
    + intros [pre [post H]]. symmetry in H.
      apply append_eq_nil in H as [-> H]. exists post. by rewrite H.
  - cbn [includes]. rewrite orb_true_iff, IH, startsWith_spec. split.
    + intros [[post H] | [pre [post H]]].
      * by exists "", post.
      * exists (String a pre), post. by rewrite append_cons, H.
    + intros [pre [post H]]. destruct pre as [|x pre].
      * left. by exists post.
      * right. exists pre, post. rewrite append_cons in H. by injection H.
Qed.

Lemma toLowerCase_nil : toLowerCase "" = "".
Proof. reflexivity. Qed.

Lemma lowerChar_idem (c : ascii) : lowerChar (lowerChar c) = lowerChar c.
Proof. by destruct c as [[] [] [] [] [] [] [] []]. Qed.

Lemma toLowerCase_idem (s : string) : toLowerCase (toLowerCase s) = toLowerCase s.
Proof.
  induction s as [|c s IH]; simpl; [done|]. by rewrite lowerChar_idem, IH.
Qed.

(** ** The matcher agrees with the meaning of the pattern *)

Lemma nullable_matches (r : regex) : nullable r = true ↔ matches r "".
Proof.
  split.
  - induction r; simpl; intros H; try discriminate.
    + constructor.
    + apply andb_true_iff in H as [H1 H2].
      change "" with ("" +:+ ""). constructor; auto.
    + apply orb_true_iff in H as [H | H];
        [apply MAltL | apply MAltR]; auto.
    + constructor.
  - intros H. remember "" as s eqn:Hs.
    induction H; simpl; try done.
    + apply append_eq_nil in Hs as [-> ->].
      rewrite IHmatches1, IHmatches2; done.
    + rewrite IHmatches; done.
    + rewrite IHmatches, orb_true_r; done.
Qed.

Lemma matches_deriv_complete (c : ascii) (r : regex) (s0 : string) :
  matches r s0 → ∀ s, s0 = String c s → matches (deriv c r) s.
Proof.
  induction 1 as [ | p a Hp | r1 r2 s1 s2 H1 IH1 H2 IH2 | r1 r2 u H IH
                 | r1 r2 u H IH | r | r s1 s2 H1 IH1 H2 IH2 ];
    intros s Hs; simpl.
  - discriminate.
  - injection Hs as -> <-. rewrite Hp. constructor.
  - destruct s1 as [|a s1].
    + rewrite append_nil_l in Hs.
      assert (nullable r1 = true) as -> by by apply nullable_matches.
      apply MAltR. by apply IH2.
    + rewrite append_cons in Hs. injection Hs as -> <-.
      assert (matches (Cat (deriv c r1) r2) (s1 +:+ s2)) as Hcat
        by (constructor; [by apply IH1 | done]).
      destruct (nullable r1); [by apply MAltL | done].
  - apply MAltL. by apply IH.
  - apply MAltR. by apply IH.
  - discriminate.
  - destruct s1 as [|a s1].
    + rewrite append_nil_l in Hs. by apply IH2.
    + rewrite append_cons in Hs. injection Hs as -> <-.
      constructor; [by apply IH1 | done].
Qed.

Lemma matches_deriv_sound (c : ascii) (r : regex) :
  ∀ s, matches (deriv c r) s → matches r (String c s).
Proof.
  induction r as [ | | p | r1 IH1 r2 IH2 | r1 IH1 r2 IH2 | r IH ];
    intros s H; simpl in H.
  - inversion H.
  - inversion H.
  - destruct (p c) eqn:Hp; inversion H; subst. by constructor.
  - destruct (nullable r1) eqn:Hn.
    + inversion H as [ | | | ? ? ? HL | ? ? ? HR | | ]; subst.
      * inversion HL as [ | | ? ? s1 s2 Ha Hb | | | | ]; subst.
        rewrite <- append_cons. constructor; auto.
      * rewrite <- (append_nil_l (String c s)). constructor; auto.
        by apply nullable_matches.
    + inversion H as [ | | ? ? s1 s2 Ha Hb | | | | ]; subst.
      rewrite <- append_cons. constructor; auto.
  - inversion H; subst; [apply MAltL | apply MAltR]; auto.
  - inversion H as [ | | ? ? s1 s2 Ha Hb | | | | ]; subst.
    rewrite <- append_cons. constructor; auto.
Qed.

(** The derivative matcher decides [matches]. *)
Lemma accepts_matches (s : string) : ∀ r, accepts r s = true ↔ matches r s.
Proof.
  induction s as [|c s IH]; intros r; simpl.
  - apply nullable_matches.
  - rewrite IH. split.
    + apply matches_deriv_sound.
    + intros H. by eapply matches_deriv_complete.
Qed.

Lemma matches_any_star (s : string) : matches (Star AnyChar) s.
Proof.
  induction s as [|c s IH]; [constructor|].
  change (String c s) with (String c "" +:+ s).
  constructor; [by constructor | done].
Qed.

(** [test] succeeds exactly when some block of the string is matched. *)
Lemma test_spec (r : regex) (s : string) :
  test r s = true ↔ ∃ pre mid post, s = pre +:+ mid +:+ post ∧ matches r mid.
Proof.
  unfold test. rewrite accepts_matches. split.
  - intros H. inversion H as [ | | ? ? pre rest Ha Hb | | | | ]; subst.
    inversion Hb as [ | | ? ? mid post Hc Hd | | | | ]; subst.
    by exists pre, mid, post.
  - intros (pre & mid & post & -> & H).
    constructor; [apply matches_any_star|].
    constructor; [done | apply matches_any_star].
Qed.

Lemma matches_Chr (c : ascii) (s : string) :
  matches (Chr c) s ↔ s = String c "".
Proof.
  split.
  - intros H. inversion H as [ | p a Hp | | | | | ]; subst.
    apply bool_decide_eq_true in Hp. by subst.
  - intros ->. constructor. by apply bool_decide_eq_true.
Qed.

Lemma matches_NonSpace_star (s : string) :
  matches (Star NonSpace) s ↔ allNonSpace s = true.
Proof.
  split.
  - intros H. remember (Star NonSpace) as r eqn:Hr.
    induction H as [ | | | | | | r s1 s2 H1 _ H2 IH2 ]; try discriminate.
    + done.
    + injection Hr as ->. inversion H1 as [ | p a Hp | | | | | ]; subst.
      rewrite append_cons, append_nil_l. simpl. rewrite Hp. by apply IH2.
  - induction s as [|c s IH]; simpl; intros H; [constructor|].
    apply andb_true_iff in H as [Hc Hs].
    change (String c s) with (String c "" +:+ s).
    constructor; [by constructor | by apply IH].
Qed.

Lemma matches_NonSpace_plus (s : string) :
  matches (Plus NonSpace) s ↔ s ≠ "" ∧ allNonSpace s = true.
Proof.
  unfold Plus. split.
  - intros H. inversion H as [ | | ? ? s1 s2 Ha Hb | | | | ]; subst.
    inversion Ha as [ | p a Hp | | | | | ]; subst.
    rewrite append_cons, append_nil_l. split; [done|]. simpl.
    rewrite Hp. by apply matches_NonSpace_star.
  - intros [Hne H]. destruct s as [|c s]; [done|]. simpl in H.
    apply andb_true_iff in H as [Hc Hs].
    change (String c s) with (String c "" +:+ s).
    constructor; [by constructor | by apply matches_NonSpace_star].
Qed.

(** The meaning of [/\S+@\S+\.\S+/.test(s)]. *)
Lemma test_emailPattern (s : string) :
  test emailPattern s = true ↔ looksLikeEmail s.
Proof.
  rewrite test_spec. unfold looksLikeEmail, emailPattern. split.
  - intros (pre & mid & post & -> & H).
    inversion H as [ | | ? ? x r1 Hx H1 | | | | ]; subst.
    inversion H1 as [ | | ? ? a r2 Ha H2 | | | | ]; subst.
    inversion H2 as [ | | ? ? y r3 Hy H3 | | | | ]; subst.
    inversion H3 as [ | | ? ? d z Hd Hz | | | | ]; subst.
    apply matches_Chr in Ha as ->. apply matches_Chr in Hd as ->.
    apply matches_NonSpace_plus in Hx as [? ?].
    apply matches_NonSpace_plus in Hy as [? ?].
    apply matches_NonSpace_plus in Hz as [? ?].
    exists pre, x, y, z, post. rewrite !append_assoc. done.
  - intros (pre & x & y & z & post & -> & ? & ? & ? & ? & ? & ?).
    exists pre, (x +:+ "@" +:+ y +:+ "." +:+ z), post.
    split; [by rewrite !append_assoc|].
    constructor; [by apply matches_NonSpace_plus|].
    constructor; [by apply matches_Chr|].
    constructor; [by apply matches_NonSpace_plus|].
    constructor; [by apply matches_Chr | by apply matches_NonSpace_plus].
Qed.

(** ** The search filter *)

Lemma filterM_total {A} (p : A → result bool) (f : A → bool) (l : list A) :
  Forall (λ x, p x = Ok (f x)) l → filterM p l = Ok (List.filter f l).
Proof.
  induction 1 as [|x l Hx _ IH]; simpl; [done|]. by rewrite Hx, IH.
Qed.

Lemma filterM_throws {A} (p : A → result bool) (l : list A) :
  filterM p l = TypeError ↔ ∃ x, x ∈ l ∧ p x = TypeError.
Proof.
  induction l as [|x l IH]; simpl.
  - split; [done | intros (x & Hx & _); by apply elem_of_nil in Hx].
  - destruct (p x) as [b|] eqn:Hpx.
    + destruct (filterM p l) as [rest|] eqn:Hl.
      * split; [done|]. intros (y & Hy & Hpy).
        apply elem_of_cons in Hy as [-> | Hy]; [congruence|].
        assert (Ok rest = TypeError) as Habs by (apply IH; eauto).
        discriminate Habs.
      * split; [|done]. intros _.
        destruct (proj1 IH eq_refl) as (y & Hy & Hpy).
        exists y. split; [by apply elem_of_cons; right | done].
    + split; [|done]. intros _. exists x. split; [apply elem_of_cons; by left | done].
Qed.

(** The result of a successful filter is a subsequence of the input. *)
Lemma filterM_sublist {A} (p : A → result bool) (l out : list A) :
  filterM p l = Ok out → sublist out l.
Proof.
  revert out. induction l as [|x l IH]; simpl; intros out H.
  - injection H as <-. constructor.
  - destruct (p x) as [b|]; [|done].
    destruct (filterM p l) as [rest|]; [|done].
    injection H as <-. destruct b.
    + apply sublist_skip. by apply IH.
    + apply sublist_cons. by apply IH.
Qed.

Lemma studentMatches_throws (t : string) (r : record) :
  studentMatches t r = TypeError ↔ failsOn t r = true.
Proof.
  unfold studentMatches, failsOn.
  destruct (get r "name") as [| | |z|n]; simpl; try done.
  destruct (includes (toLowerCase n) t); simpl; [done|].
  destruct (get r "email") as [| | |z|e]; simpl; try done.
  destruct (includes (toLowerCase e) t); simpl; [done|].
  destruct (get r "studentId") as [| |[]|z|i]; simpl; try done.
  all: destruct (includes _ t); done.
Qed.

(** X22.  On records whose name and email are strings and whose studentId
    is a string without upper-case letters, the code computes the search of
    the specification. *)
Lemma searchFilter_agrees_on_lowercase_ids (L : list record) (T : string) :
  Forall (λ r, isText (get r "name") ∧ isText (get r "email") ∧
               ∃ i, get r "studentId" = JStr i ∧ toLowerCase i = i) L →
  searchFilter L T = Ok (specSearch L T).
Proof.
  intros H. unfold searchFilter, specSearch. apply filterM_total.
  eapply Forall_impl; [exact H|]. simpl.
  intros r ([n Hn] & [e He] & (i & Hi & Hlow)).
  unfold studentMatches, specMatches, containsIgnoreCase.
  rewrite Hn, He, Hi. simpl. rewrite Hlow.
  destruct (includes (toLowerCase n) _); simpl; [done|].
  destruct (includes (toLowerCase e) _); simpl; done.
Qed.

(** C1 (the code departs from the claim).  The claim: the search returns the
    records that have the term as a case-insensitive substring of name,
    email or studentId.  The code lower-cases the term, the name and the
    email, but not the studentId: on the list of the specification's own
    scenario, searching for [S100], the very studentId of the record,
    returns the empty list, whereas the case-insensitive search of the
    claim returns the record. *)
Theorem C1_search_misses_uppercase_studentId :
  searchFilter [ana] "S100" = Ok [] ∧ specSearch [ana] "S100" = [ana].
Proof. split; vm_compute; reflexivity. Qed.

(** C6.  Filtering with the empty search term returns the record list
    unchanged: for every list of records that have a text name (the record
    type of the data model; email and studentId are not even read), the
    filter returns the very same list. *)
Theorem C6_empty_term_is_identity (L : list record) :
  Forall (λ r, isText (get r "name")) L →
  searchFilter L "" = Ok L.
Proof.
  intros H. unfold searchFilter. rewrite toLowerCase_nil.
  rewrite (filterM_total _ (λ _, true)).
  - f_equal. induction L as [|r L IH]; simpl; [done|].
    f_equal. apply IH. by inversion H.
  - eapply Forall_impl; [exact H|]. simpl. intros r [n Hn].
    unfold studentMatches. rewrite Hn. simpl. by rewrite includes_nil.
Qed.

Lemma C6_empty_term_is_identity_witness :
  Forall (λ r, isText (get r "name")) [ana; nameOnly] ∧
  searchFilter [ana; nameOnly] "" = Ok [ana; nameOnly].
Proof.
  assert (Forall (λ r, isText (get r "name")) [ana; nameOnly]) as H
    by (repeat constructor; eexists; vm_compute; reflexivity).
  split; [exact H|]. exact (C6_empty_term_is_identity [ana; nameOnly] H).
Defined.

(** C9 (counterexample to the claim as stated).  A record that has a name
    but neither email nor studentId does not make the filter fail when its
    name already contains the term: the [||] chain stops at the name and
    the record is returned. *)
Lemma C9_missing_field_need_not_throw :
  ¬ hasRequiredFields nameOnly ∧
  searchFilter [nameOnly] "an" = Ok [nameOnly] ∧
  ¬ throwsOnAnyMissingField.
Proof.
  assert (¬ hasRequiredFields nameOnly) as Hmiss.
  { intros (_ & [He _] & _). by apply He. }
  assert (searchFilter [nameOnly] "an" = Ok [nameOnly]) as Hrun
    by (vm_compute; reflexivity).
  split; [done|]. split; [done|]. intros Hclaim.
  assert (searchFilter [nameOnly] "an" = TypeError) as Habs.
  { apply (Hclaim [nameOnly] "an" nameOnly); [|done].
    apply elem_of_cons. by left. }
  rewrite Hrun in Habs. discriminate Habs.
Qed.

(** C9 (amended).  The filter fails (a method call on an absent value, or
    on a value without the method) exactly when the list holds a record on
    which the callback reaches such a field: a name that is not a string;
    or, the name not containing the lower-cased term, an email that is not
    a string; or, neither containing it, a studentId that is absent or
    null.  Otherwise it returns a list. *)
Theorem C9_filter_throws_iff (L : list record) (T : string) :
  (searchFilter L T = TypeError ↔
     ∃ r, r ∈ L ∧ failsOn (toLowerCase T) r = true) ∧
  ((∀ r, r ∈ L → failsOn (toLowerCase T) r = false) ↔
     ∃ out, searchFilter L T = Ok out).
Proof.
  assert (searchFilter L T = TypeError ↔
          ∃ r, r ∈ L ∧ failsOn (toLowerCase T) r = true) as Hiff.
  { unfold searchFilter. rewrite filterM_throws.
    split; intros (r & Hr & H); exists r; (split; [done|]);
      by apply studentMatches_throws. }
  split; [exact Hiff|]. split.
  - intros Hall. destruct (searchFilter L T) as [out|] eqn:Hrun; [eauto|].
    destruct Hiff as [Hiff _]. destruct (Hiff eq_refl) as (r & Hr & Hf).
    rewrite (Hall r Hr) in Hf. discriminate.
  - intros [out Hout] r Hr. destruct (failsOn (toLowerCase T) r) eqn:Hf; [|done].
    destruct Hiff as [_ Hiff]. rewrite Hiff in Hout; [discriminate | eauto].
Qed.

Lemma C9_filter_throws_iff_witness :
  ∃ out, searchFilter [ana; nameOnly] "li" = Ok out.
Proof.
  apply (C9_filter_throws_iff [ana; nameOnly] "li").
  intros r Hr. apply elem_of_cons in Hr as [-> | Hr]; [by vm_compute|].
  apply elem_of_cons in Hr as [-> | Hr]; [by vm_compute|].
  by apply elem_of_nil in Hr.
Defined.

(** ** Snapshots *)

Lemma materialize_data (doc : QueryDocumentSnapshot) (k : string) (v : jsval) :
  doc_data doc !! k = Some v → materialize doc !! k = Some v.
Proof. intros H. unfold materialize. by apply lookup_union_Some_l. Qed.

Lemma materialize_id (doc : QueryDocumentSnapshot) :
  doc_data doc !! "id" = None →
  materialize doc !! "id" = Some (JStr (doc_id doc)).
Proof.
  intros H. unfold materialize. rewrite lookup_union_r by done.
  apply lookup_singleton_eq.
Qed.

Lemma materialize_other (doc : QueryDocumentSnapshot) (k : string) :
  k ≠ "id" → materialize doc !! k = doc_data doc !! k.
Proof.
  intros H. unfold materialize. rewrite lookup_union_l; [done|].
  by apply lookup_singleton_ne.
Qed.

Section AppProperties.

Variable __app_id : option string.

(** C5.  After every change notification the record list is exactly the
    list of records materialised from the documents of that snapshot,
    whatever the list held before: it has one record per document, in the
    snapshot's order, and the record at a position has precisely the fields
    of the document at that position, with their values, and an [id], which
    is the document id unless the data has a field [id] of its own. *)
Theorem C5_snapshot_replaces_list (docs : list QueryDocumentSnapshot) (st : AppState) :
  step __app_id (SnapshotNext docs) st = Ok (snapshotNext docs st, []) ∧
  students (snapshotNext docs st) = map materialize docs ∧
  length (students (snapshotNext docs st)) = length docs ∧
  (∀ i d, docs !! i = Some d →
     ∃ r, students (snapshotNext docs st) !! i = Some r ∧
          (∀ k, k ≠ "id" → r !! k = doc_data d !! k) ∧
          (r !! "id" = Some (match doc_data d !! "id" with
                             | Some v => v
                             | None => JStr (doc_id d)
                             end)) ∧
          dom r = dom (doc_data d) ∪ {[ "id" ]}).
Proof.
  split; [done|]. split; [done|]. simpl. split.
  - apply length_map.
  - intros i d H. exists (materialize d). split.
    + by rewrite list_lookup_fmap, H.
    + split; [intros k; apply materialize_other|]. split.
      * destruct (doc_data d !! "id") as [v|] eqn:Hid.
        -- by apply materialize_data.
        -- by apply materialize_id.
      * unfold materialize. by rewrite dom_union_L, dom_singleton_L.
Qed.

(** ** The form *)

Lemma validateForm_required (st : AppState) :
  truthy (get (currentStudent st) "name") = false ∨
  truthy (get (currentStudent st) "email") = false ∨
  truthy (get (currentStudent st) "studentId") = false →
  validateForm st = (setError (Some requiredMessage) st, false).
Proof.
  unfold validateForm. intros [H | [H | H]]; rewrite H; simpl;
    rewrite ?orb_true_r; done.
Qed.

Lemma validateForm_email (st : AppState) :
  truthy (get (currentStudent st) "name") = true →
  truthy (get (currentStudent st) "email") = true →
  truthy (get (currentStudent st) "studentId") = true →
  test emailPattern (ToString (get (currentStudent st) "email")) = false →
  validateForm st = (setError (Some emailMessage) st, false).
Proof. unfold validateForm. by intros -> -> -> ->. Qed.

Lemma validateForm_passes (st : AppState) :
  truthy (get (currentStudent st) "name") = true →
  truthy (get (currentStudent st) "email") = true →
  truthy (get (currentStudent st) "studentId") = true →
  test emailPattern (ToString (get (currentStudent st) "email")) = true →
  validateForm st = (st, true).
Proof. unfold validateForm. by intros -> -> -> ->. Qed.

(** A form that passes has the three required fields non-empty and an
    email in which the pattern finds a match. *)
Lemma validateForm_true (st st' : AppState) :
  validateForm st = (st', true) →
  st' = st ∧
  truthy (get (currentStudent st) "name") = true ∧
  truthy (get (currentStudent st) "email") = true ∧
  truthy (get (currentStudent st) "studentId") = true ∧
  looksLikeEmail (ToString (get (currentStudent st) "email")).
Proof.
  unfold validateForm.
  destruct (truthy (get (currentStudent st) "name")); simpl; [|done].
  destruct (truthy (get (currentStudent st) "email")); simpl; [|done].
  destruct (truthy (get (currentStudent st) "studentId")); simpl; [|done].
  destruct (test emailPattern _) eqn:Ht; simpl; [|done].
  intros H. simplify_eq. repeat split; try done. by apply test_emailPattern.
Qed.

(** Whatever the submit button sends to the store is the record of the
    form, and that record has passed validation. *)
Lemma submit_dispatches_only_validated
    (st st' : AppState) (reqs : list request) (r : request) :
  submit __app_id st = (st', reqs) → r ∈ reqs →
  validateForm st = (st, true) ∧ st' = st ∧
  (r = AddDoc (studentsPath __app_id st) (currentStudent st) ∨
   r = UpdateDoc (studentsPath __app_id st) (get (currentStudent st) "id")
         (currentStudent st)).
Proof.
  unfold submit, handleAddStudent, handleUpdateStudent.
  destruct (validateForm st) as [st1 valid] eqn:Hv.
  destruct valid; simpl.
  - apply validateForm_true in Hv as (-> & _).
    destruct (isEditMode st); intros H Hr; repeat case_match; simplify_eq;
      try (by apply elem_of_nil in Hr);
      apply elem_of_cons in Hr as [-> | Hr]; auto; by apply elem_of_nil in Hr.
  - destruct (isEditMode st); intros H Hr; simplify_eq;
      by apply elem_of_nil in Hr.
Qed.

(** C2.  Submitting create or update while the name, the email or the
    studentId of the record in the form is empty issues no request at all,
    hence no store mutation, and sets the error to
    "Name, Email, and Student ID are required."; nothing else of the state
    changes. *)
Theorem C2_empty_required_field_blocks_submit (st : AppState) :
  get (currentStudent st) "name" = JStr "" ∨
  get (currentStudent st) "email" = JStr "" ∨
  get (currentStudent st) "studentId" = JStr "" →
  let rejected :=
    (setError (Some "Name, Email, and Student ID are required.") st, []) in
  handleAddStudent __app_id st = rejected ∧
  handleUpdateStudent __app_id st = rejected ∧
  step __app_id SubmitClicked st = Ok rejected.
Proof.
  intros H.
  assert (validateForm st = (setError (Some requiredMessage) st, false)) as Hv.
  { apply validateForm_required. destruct H as [H | [H | H]]; rewrite H; auto. }
  unfold step, submit, handleAddStudent, handleUpdateStudent.
  rewrite Hv. simpl. by destruct (isEditMode st).
Qed.

(** C3.  Submitting create or update with name, email and studentId all
    non-empty but an email in which the pattern [\S+@\S+\.\S+] finds no
    match issues no request at all, hence no store mutation, and sets the
    error to "Please enter a valid email address.". *)
Theorem C3_malformed_email_blocks_submit (st : AppState) (n e i : string) :
  get (currentStudent st) "name" = JStr n →
  get (currentStudent st) "email" = JStr e →
  get (currentStudent st) "studentId" = JStr i →
  n ≠ "" → e ≠ "" → i ≠ "" →
  ¬ looksLikeEmail e →
  let rejected :=
    (setError (Some "Please enter a valid email address.") st, []) in
  handleAddStudent __app_id st = rejected ∧
  handleUpdateStudent __app_id st = rejected ∧
  step __app_id SubmitClicked st = Ok rejected.
Proof.
  intros Hn He Hi Hn0 He0 Hi0 Hpat.
  assert (validateForm st = (setError (Some emailMessage) st, false)) as Hv.
  { apply validateForm_email; rewrite ?Hn, ?He, ?Hi; simpl;
      rewrite ?bool_decide_eq_false_2; try done.
    destruct (test emailPattern e) eqn:Ht; [|done].
    by apply test_emailPattern in Ht. }
  unfold step, submit, handleAddStudent, handleUpdateStudent.
  rewrite Hv. simpl. by destruct (isEditMode st).
Qed.

(** C10.  When the submitted record breaks both rules, a required field
    empty and an email that the pattern does not match, the error set is
    the required-fields message and not the email-format one. *)
Theorem C10_required_check_comes_first (st : AppState) :
  (get (currentStudent st) "name" = JStr "" ∨
   get (currentStudent st) "email" = JStr "" ∨
   get (currentStudent st) "studentId" = JStr "") →
  ¬ looksLikeEmail (ToString (get (currentStudent st) "email")) →
  error (fst (validateForm st)) = Some "Name, Email, and Student ID are required." ∧
  error (fst (validateForm st)) ≠ Some "Please enter a valid email address." ∧
  error (fst (handleAddStudent __app_id st)) = Some "Name, Email, and Student ID are required." ∧
  error (fst (handleUpdateStudent __app_id st)) = Some "Name, Email, and Student ID are required.".
Proof.
  intros H _.
  assert (validateForm st = (setError (Some requiredMessage) st, false)) as Hv.
  { apply validateForm_required. destruct H as [H | [H | H]]; rewrite H; auto. }
  unfold handleAddStudent, handleUpdateStudent. rewrite Hv. simpl.
  repeat split; done.
Qed.

(** ** Closing the modal *)

(** C7.  Closing the modal, from whatever state (create or edit mode, with
    or without an error showing), puts the empty template
    [{name:'', email:'', phone:'', studentId:''}] back into the form, leaves
    edit mode and clears the error; it also hides the modal and touches
    nothing else. *)
Theorem C7_closeModal_resets (st : AppState) :
  step __app_id CloseClicked st = Ok (closeModal st, []) ∧
  currentStudent (closeModal st) =
    {[ "name" := JStr ""; "email" := JStr ""; "phone" := JStr "";
       "studentId" := JStr "" ]} ∧
  isEditMode (closeModal st) = false ∧
  error (closeModal st) = None ∧
  isModalOpen (closeModal st) = false ∧
  students (closeModal st) = students st ∧
  filteredStudents (closeModal st) = filteredStudents st ∧
  searchTerm (closeModal st) = searchTerm st ∧
  isLoading (closeModal st) = isLoading st ∧
  db (closeModal st) = db st ∧
  auth (closeModal st) = auth st ∧
  userId (closeModal st) = userId st.
Proof. repeat split. Qed.

(** ** Deleting *)

(** A reference is built only with a database handle; a document reference
    only for an identifier that is a string. *)
Lemma collection_Some_inv (d : option Firestore) (path : string) :
  is_Some (collection d path) → is_Some d.
Proof. unfold collection. destruct d; [by eexists | by intros [? ?]]. Qed.

Lemma doc_Some_inv (d : option Firestore) (path : string) (id : jsval) :
  is_Some (doc d path id) → is_Some d ∧ ∃ i, id = JStr i.
Proof.
  unfold doc. destruct d; [|by intros [? ?]].
  destruct id as [| | | |i]; try by intros [? ?].
  intros _. split; by eexists.
Qed.

Lemma handleDeleteStudent_declined (ask : string → jsval) (id : jsval) (st : AppState) :
  truthy (ask confirmMessage) = false →
  handleDeleteStudent __app_id (Some ask) id st = (st, [CustomConfirm confirmMessage]).
Proof. intros H. unfold handleDeleteStudent. by rewrite H. Qed.

Lemma handleDeleteStudent_granted (ask : string → jsval) (id : jsval) (st : AppState) :
  truthy (ask confirmMessage) = true →
  is_Some (doc (db st) (studentsPath __app_id st) id) →
  handleDeleteStudent __app_id (Some ask) id st =
    (st, [CustomConfirm confirmMessage; DeleteDoc (studentsPath __app_id st) id]).
Proof. intros H [r Hr]. unfold handleDeleteStudent. by rewrite H, Hr. Qed.

(** When building the reference throws, nothing is sent and the error is
    set, whether or not anybody was asked. *)
Lemma handleDeleteStudent_throws (id : jsval) (st : AppState) :
  doc (db st) (studentsPath __app_id st) id = None →
  handleDeleteStudent __app_id None id st =
    (setError (Some "Failed to delete student. Please try again.") st, []).
Proof. intros H. unfold handleDeleteStudent. by rewrite H. Qed.

(** C4 (the code departs from the claim).  The claim: a removal is
    dispatched only after a confirmation step has granted it.  When
    [window.customConfirm] is not defined, and nothing in the repository
    defines it, the handler asks nobody: for every identifier for which the
    document reference can be built (a database handle, and a string that
    names a document of the collection), in every state, the only request
    it issues is the removal itself. *)
Theorem C4_delete_without_confirmation (id : jsval) (st : AppState) :
  is_Some (doc (db st) (studentsPath __app_id st) id) →
  handleDeleteStudent __app_id None id st =
    (st, [DeleteDoc (studentsPath __app_id st) id]) ∧
  step __app_id (DeleteClicked None id) st =
    Ok (st, [DeleteDoc (studentsPath __app_id st) id]) ∧
  CustomConfirm confirmMessage ∉ snd (handleDeleteStudent __app_id None id st).
Proof.
  intros [r Hr].
  assert (handleDeleteStudent __app_id None id st =
            (st, [DeleteDoc (studentsPath __app_id st) id])) as Hdel
    by (unfold handleDeleteStudent; by rewrite Hr).
  split; [done|]. split; [unfold step; by rewrite Hdel|]. rewrite Hdel. simpl.
  intros H. apply elem_of_cons in H as [H | H]; [discriminate H|].
  by apply elem_of_nil in H.
Qed.

(** ** Who writes the record list *)

Lemma students_validateForm (st : AppState) :
  students (fst (validateForm st)) = students st.
Proof. unfold validateForm. by repeat case_match. Qed.

(** Every callback but the two effects that can throw returns normally. *)
Lemma step_total (e : event) (st : AppState) :
  e ≠ SearchEffect → e ≠ DataEffect →
  ∃ st' reqs, step __app_id e st = Ok (st', reqs).
Proof.
  intros He He'. destruct e; simpl; try done;
    match goal with |- ∃ _ _, Ok ?p = _ => exists (fst p), (snd p) end;
    by rewrite <- surjective_pairing.
Qed.

Lemma step_preserves_students
    (e : event) (st st' : AppState) (reqs : list request) :
  isSnapshotNext e = false →
  step __app_id e st = Ok (st', reqs) →
  students st' = students st.
Proof.
  intros He H. pose proof (students_validateForm st) as Hv.
  destruct e; simpl in *; try discriminate He;
    unfold initEffect, authStateChanged, dataEffect, searchEffect, submit,
      handleAddStudent, handleUpdateStudent, handleDeleteStudent,
      addStudentSettled, updateStudentSettled, deleteStudentSettled,
      mbind, result_bind in H;
    repeat case_match; simplify_eq/=; done.
Qed.

(** The same along any sequence of events without a change notification. *)
Lemma run_preserves_students (es : list event) :
  ∀ (st st' : AppState) (reqs : list request),
    forallb (λ e, negb (isSnapshotNext e)) es = true →
    run __app_id es st = Ok (st', reqs) →
    students st' = students st.
Proof.
  induction es as [|e es IH]; simpl; intros st st' reqs Hes H.
  - by simplify_eq.
  - apply andb_true_iff in Hes as [He Hes].
    destruct (step __app_id e st) as [[st1 reqs1]|] eqn:Hstep; [|done].
    destruct (run __app_id es st1) as [[st2 reqs2]|] eqn:Hrun; [|done].
    simplify_eq. rewrite (IH _ _ _ Hes Hrun).
    eapply step_preserves_students; [|exact Hstep].
    by destruct (isSnapshotNext e).
Qed.

(** C8.  The record list is written by the subscription callback only: no
    other callback, and in particular neither the create, update and delete
    handlers (the part before the store request) nor their continuations
    (the part after the request has settled), changes it. *)
Theorem C8_only_snapshot_writes_students
    (e : event) (st st' : AppState) (reqs : list request) :
  isSnapshotNext e = false →
  step __app_id e st = Ok (st', reqs) →
  students st' = students st.
Proof. apply step_preserves_students. Qed.

End AppProperties.

(** ** The theorems at the scenarios of the specification *)

Lemma C4_delete_without_confirmation_witness :
  is_Some (doc (db (sessionWith ana)) (studentsPath None (sessionWith ana))
             (JStr "1")) ∧
  handleDeleteStudent None None (JStr "1") (sessionWith ana) =
    (sessionWith ana,
     [DeleteDoc "artifacts/default-student-app/users/u1/students" (JStr "1")]).
Proof.
  assert (is_Some (doc (db (sessionWith ana))
                     (studentsPath None (sessionWith ana)) (JStr "1"))) as H
    by (vm_compute; by eexists).
  split; [exact H|].
  exact (proj1 (C4_delete_without_confirmation None (JStr "1")
                  (sessionWith ana) H)).
Defined.

Lemma C2_empty_required_field_blocks_submit_witness :
  get (currentStudent (sessionWith blankName)) "name" = JStr "" ∧
  handleAddStudent None (sessionWith blankName) =
    (setError (Some "Name, Email, and Student ID are required.")
       (sessionWith blankName), []).
Proof.
  assert (get (currentStudent (sessionWith blankName)) "name" = JStr "") as H
    by (vm_compute; reflexivity).
  split; [exact H|].
  exact (proj1 (C2_empty_required_field_blocks_submit None
                  (sessionWith blankName) (or_introl H))).
Defined.

Lemma not_an_email : ¬ looksLikeEmail "not-an-email".
Proof. intros H. apply test_emailPattern in H. vm_compute in H. discriminate H. Qed.

Lemma C3_malformed_email_blocks_submit_witness :
  ¬ looksLikeEmail "not-an-email" ∧
  handleAddStudent None (sessionWith badEmail) =
    (setError (Some "Please enter a valid email address.")
       (sessionWith badEmail), []).
Proof.
  split; [exact not_an_email|].
  refine (proj1 (C3_malformed_email_blocks_submit None (sessionWith badEmail)
                   "Bo" "not-an-email" "S2" _ _ _ _ _ _ not_an_email));
    first [ vm_compute; reflexivity | discriminate ].
Defined.

Lemma C10_required_check_comes_first_witness :
  get (currentStudent (sessionWith blankNameBadEmail)) "name" = JStr "" ∧
  ¬ looksLikeEmail
      (ToString (get (currentStudent (sessionWith blankNameBadEmail)) "email")) ∧
  error (fst (validateForm (sessionWith blankNameBadEmail))) =
    Some "Name, Email, and Student ID are required.".
Proof.
  assert (get (currentStudent (sessionWith blankNameBadEmail)) "name" = JStr "")
    as H by (vm_compute; reflexivity).
  assert (¬ looksLikeEmail
            (ToString (get (currentStudent (sessionWith blankNameBadEmail)) "email")))
    as H' by (replace (ToString _) with "not-an-email"
                by (vm_compute; reflexivity); exact not_an_email).
  split; [exact H|]. split; [exact H'|].
  exact (proj1 (C10_required_check_comes_first None
                  (sessionWith blankNameBadEmail) (or_introl H) H')).
Defined.

Lemma C8_only_snapshot_writes_students_witness :
  isSnapshotNext (AddSettled true) = false ∧
  step None (AddSettled true) (sessionWith ana) =
    Ok (addStudentSettled true (sessionWith ana), []) ∧
  students (addStudentSettled true (sessionWith ana)) = [ana].
Proof.
  split; [reflexivity|]. split; [reflexivity|].
  apply (C8_only_snapshot_writes_students None (AddSettled true)
           (sessionWith ana) (addStudentSettled true (sessionWith ana)) []);
    reflexivity.
Defined.

Example search_scenario_ana : searchFilter [ana] "ana" = Ok [ana].
Proof. vm_compute. reflexivity. Qed.

Example search_scenario_S200 : searchFilter [ana] "S200" = Ok [].
Proof. vm_compute. reflexivity. Qed.

Example submit_valid_form :
  handleAddStudent None (sessionWith ana) =
    (sessionWith ana, [AddDoc "artifacts/default-student-app/users/u1/students" ana]).
Proof. vm_compute. reflexivity. Qed.

Example delete_declined :
  handleDeleteStudent None (Some (λ _, JBool false)) (JStr "1") (sessionWith ana) =
    (sessionWith ana, [CustomConfirm "Are you sure you want to delete this student?"]).
Proof. reflexivity. Qed.

Example number_as_text : ToString (JNum (-120)) = "-120".
Proof. vm_compute. reflexivity. Qed.

Example large_number_as_text :
  ToString (JNum (10 ^ 21)) = "1e+21" ∧
  ToString (JNum (-15 * 10 ^ 21)) = "-1.5e+22" ∧
  ToString (JNum (10 ^ 21 - 1)) = "999999999999999999999".
Proof. repeat split; vm_compute; reflexivity. Qed.

Example large_number_is_searchable :
  searchFilter [ {[ "name" := JStr "Bo"; "email" := JStr "bo@x.com";
                    "studentId" := JNum (10 ^ 21) ]} ] "E+21"
  = Ok [ {[ "name" := JStr "Bo"; "email" := JStr "bo@x.com";
            "studentId" := JNum (10 ^ 21) ]} ].
Proof. vm_compute. reflexivity. Qed.

Example references :
  is_Some (collection (Some firestoreDb) "artifacts/app/users/u1/students") ∧
  collection None "artifacts/app/users/u1/students" = None ∧
  collection (Some firestoreDb) "artifacts//users/u1/students" = None ∧
  is_Some (doc (Some firestoreDb) "artifacts/app/users/u1/students" (JStr "1")) ∧
  doc (Some firestoreDb) "artifacts/app/users/u1/students" (JStr "") = None ∧
  doc (Some firestoreDb) "artifacts/app/users/u1/students" (JNum 1) = None ∧
  doc (Some firestoreDb) "artifacts/app/users/u1/students" JUndefined = None ∧
  doc None "artifacts/app/users/u1/students" (JStr "1") = None.
Proof. repeat split; try (vm_compute; reflexivity); vm_compute; by eexists. Qed.

Example submit_without_database :
  run None (createScript "Bo" "bo@x.com" "S2" "") (fst (initEffect true initialState))
  = Ok (setError (Some "Failed to add student. Please try again.")
          (setCurrentStudent (filledForm "Bo" "bo@x.com" "S2" "")
             (openModal (fst (initEffect true initialState)))), []).
Proof. vm_compute. reflexivity. Qed.

Example delete_with_numeric_id :
  handleDeleteStudent None None (JNum 7) (sessionWith ana) =
    (setError (Some "Failed to delete student. Please try again.")
       (sessionWith ana), []).
Proof. vm_compute. reflexivity. Qed.

Example lower_latin1 : toLowerCase "S100 ANA" = "s100 ana".
Proof. reflexivity. Qed.

Example email_accepts : test emailPattern "a@b.com" = true.
Proof. reflexivity. Qed.

Example email_rejects_space : test emailPattern "a @b.c" = false.
Proof. reflexivity. Qed.

(** * Further properties of the code *)

(** ** The search filter, continued *)

Lemma filterM_elem {A} (p : A → result bool) (l : list A) :
  ∀ out, filterM p l = Ok out → ∀ x, x ∈ out ↔ x ∈ l ∧ p x = Ok true.
Proof.
  induction l as [|y l IH]; simpl; intros out H x.
  - simplify_eq. split; [intros Hx | intros [Hx _]]; by apply elem_of_nil in Hx.
  - destruct (p y) as [b|] eqn:Hy; [|done].
    destruct (filterM p l) as [rest|] eqn:Hl; [|done].
    simplify_eq. specialize (IH rest eq_refl x).
    rewrite elem_of_cons. destruct b.
    + rewrite elem_of_cons, IH. split.
      * intros [-> | [? ?]]; auto.
      * intros [[-> | ?] ?]; auto.
    + rewrite IH. split.
      * intros [? ?]; auto.
      * intros [[-> | ?] ?]; [congruence | auto].
Qed.

Lemma filterM_again {A} (p : A → result bool) (l : list A) :
  ∀ out, filterM p l = Ok out → filterM p out = Ok out.
Proof.
  induction l as [|y l IH]; simpl; intros out H.
  - by simplify_eq.
  - destruct (p y) as [b|] eqn:Hy; [|done].
    destruct (filterM p l) as [rest|] eqn:Hl; [|done].
    simplify_eq. specialize (IH rest eq_refl). destruct b; [|done].
    simpl. by rewrite Hy, IH.
Qed.

(** X1.  When the search succeeds, its result is a subsequence of the
    record list (same records, same order, nothing added), and it holds
    exactly the records of the list on which the callback answers true. *)
Theorem searchFilter_selects (L out : list record) (T : string) :
  searchFilter L T = Ok out →
  sublist out L ∧
  ∀ r, r ∈ out ↔ r ∈ L ∧ studentMatches (toLowerCase T) r = Ok true.
Proof.
  unfold searchFilter. intros H. split.
  - by eapply filterM_sublist.
  - by eapply filterM_elem.
Qed.

Lemma searchFilter_selects_witness :
  searchFilter [ana; blankName] "x.com" = Ok [ana] ∧
  sublist [ana] [ana; blankName].
Proof.
  assert (searchFilter [ana; blankName] "x.com" = Ok [ana]) as H
    by (vm_compute; reflexivity).
  split; [exact H|].
  exact (proj1 (searchFilter_selects [ana; blankName] [ana] "x.com" H)).
Defined.

(** X2.  Searching within a search result with the same term changes
    nothing: the filter is idempotent. *)
Theorem searchFilter_idempotent (L out : list record) (T : string) :
  searchFilter L T = Ok out → searchFilter out T = Ok out.
Proof. unfold searchFilter. apply filterM_again. Qed.

Lemma searchFilter_idempotent_witness :
  searchFilter [ana; blankName] "x.com" = Ok [ana] ∧
  searchFilter [ana] "x.com" = Ok [ana].
Proof.
  assert (searchFilter [ana; blankName] "x.com" = Ok [ana]) as H
    by (vm_compute; reflexivity).
  split; [exact H|].
  exact (searchFilter_idempotent [ana; blankName] [ana] "x.com" H).
Defined.

(** X3.  The case in which the term is typed does not matter, also when
    the search throws: two terms with the same lower-case form give the
    same outcome, and a term gives the same outcome as its lower-case
    form. *)
Theorem searchFilter_term_case (L : list record) (T T' : string) :
  (toLowerCase T = toLowerCase T' → searchFilter L T = searchFilter L T') ∧
  searchFilter L (toLowerCase T) = searchFilter L T.
Proof.
  unfold searchFilter. split.
  - by intros ->.
  - by rewrite toLowerCase_idem.
Qed.

Lemma lowerChar_not_upper (c : ascii) : isUpperCase (lowerChar c) = false.
Proof. by destruct c as [[] [] [] [] [] [] [] []]. Qed.

Lemma allUpperCase_app (a b : string) :
  allUpperCase (a +:+ b) = allUpperCase a && allUpperCase b.
Proof.
  induction a as [|c a IH]; [done|].
  rewrite append_cons. simpl. by rewrite IH, andb_assoc.
Qed.

(** No block of an all-capitals text is the lower-case form of a non-empty
    term. *)
Lemma includes_allUpperCase (i T : string) :
  T ≠ "" → allUpperCase i = true → includes i (toLowerCase T) = false.
Proof.
  intros HT Hi. destruct (includes i (toLowerCase T)) eqn:Hinc; [|done].
  apply includes_spec in Hinc as (pre & post & ->).
  rewrite !allUpperCase_app in Hi.
  apply andb_true_iff in Hi as [_ Hi]. apply andb_true_iff in Hi as [Hi _].
  destruct T as [|c T]; [done|]. simpl in Hi.
  by rewrite lowerChar_not_upper in Hi.
Qed.

(** X4.  A studentId written in capital letters only cannot be searched
    for: whatever non-empty term is typed, records whose name and email do
    not contain it are not found through such a studentId. *)
Theorem searchFilter_capital_studentId (L : list record) (T : string) :
  T ≠ "" →
  Forall (λ r, ∃ n e i,
            get r "name" = JStr n ∧ get r "email" = JStr e ∧
            get r "studentId" = JStr i ∧
            includes (toLowerCase n) (toLowerCase T) = false ∧
            includes (toLowerCase e) (toLowerCase T) = false ∧
            allUpperCase i = true) L →
  searchFilter L T = Ok [].
Proof.
  intros HT H. unfold searchFilter.
  rewrite (filterM_total _ (λ _, false)).
  - f_equal. clear H. by induction L.
  - eapply Forall_impl; [exact H|]. simpl.
    intros r (n & e & i & Hn & He & Hi & Hn' & He' & Hup).
    unfold studentMatches. rewrite Hn, He, Hi. simpl.
    by rewrite Hn', He', (includes_allUpperCase i T).
Qed.

Lemma searchFilter_capital_studentId_witness :
  "abc" ≠ "" ∧ searchFilter [capitalId] "abc" = Ok [].
Proof.
  split; [discriminate|].
  apply (searchFilter_capital_studentId [capitalId] "abc"); [discriminate|].
  repeat constructor. exists "Bo", "bo@x.com", "ABC".
  repeat split; vm_compute; reflexivity.
Defined.

(** ** Validation, continued *)

Section FormProperties.

Variable __app_id : option string.

(** X5.  The form passes validation exactly when name, email and studentId
    are truthy and the email, as text, contains a block [x@y.z] with [x],
    [y], [z] non-empty and free of white space.  A form that passes leaves
    the state as it is; in particular an error shown earlier stays. *)
Theorem validateForm_accepts_iff (st : AppState) :
  (snd (validateForm st) = true ↔
     truthy (get (currentStudent st) "name") = true ∧
     truthy (get (currentStudent st) "email") = true ∧
     truthy (get (currentStudent st) "studentId") = true ∧
     looksLikeEmail (ToString (get (currentStudent st) "email"))) ∧
  (snd (validateForm st) = true → fst (validateForm st) = st) ∧
  (snd (validateForm st) = false → is_Some (error (fst (validateForm st)))).
Proof.
  split; [split|split].
  - intros H. destruct (validateForm st) as [st' b] eqn:Hv. simpl in H. subst b.
    apply validateForm_true in Hv. tauto.
  - intros (Hn & He & Hi & Hpat).
    rewrite validateForm_passes; auto. by apply test_emailPattern.
  - intros H. destruct (validateForm st) as [st' b] eqn:Hv. simpl in *. subst b.
    by apply validateForm_true in Hv as [-> _].
  - unfold validateForm. repeat case_match; simpl; try done; by eexists.
Qed.

(** X6.  The pattern is not anchored: text before and after an accepted
    email, white space included, does not make it rejected. *)
Theorem emailPattern_unanchored (pre s post : string) :
  test emailPattern s = true →
  test emailPattern (pre +:+ s +:+ post) = true.
Proof.
  rewrite !test_spec. intros (a & mid & b & -> & H).
  exists (pre +:+ a), mid, (b +:+ post). split; [|done].
  by rewrite !append_assoc.
Qed.

(** ** Typing into the form *)

(** X7.  A keystroke event replaces the named field of the form by the
    typed text and leaves every other field, and every other cell of the
    state, alone; typing twice into a field keeps the later text only, and
    typing into two different fields gives the same form in either
    order. *)
Theorem handleInputChange_fields (k k' v v' : string) (st : AppState) :
  get (currentStudent (handleInputChange k v st)) k = JStr v ∧
  (k ≠ k' →
     get (currentStudent (handleInputChange k v st)) k' =
     get (currentStudent st) k') ∧
  handleInputChange k v' (handleInputChange k v st) = handleInputChange k v' st ∧
  (k ≠ k' →
     handleInputChange k v (handleInputChange k' v' st) =
     handleInputChange k' v' (handleInputChange k v st)) ∧
  setCurrentStudent (currentStudent st) (handleInputChange k v st) = st.
Proof.
  unfold handleInputChange, get. destruct st; simpl. repeat split.
  - by rewrite lookup_insert_eq.
  - intros H. by rewrite lookup_insert_ne.
  - unfold setCurrentStudent; simpl. by rewrite insert_insert_eq.
  - intros H. unfold setCurrentStudent; simpl. f_equal.
    by apply insert_insert_ne.
Qed.

Lemma closeModal_handleInputChange (k v : string) (st : AppState) :
  closeModal (handleInputChange k v st) = closeModal st.
Proof. done. Qed.

Lemma closeModal_startEdit (student : record) (st : AppState) :
  closeModal (startEdit student st) = closeModal st.
Proof. done. Qed.

Lemma closeModal_openModal (st : AppState) :
  closeModal (openModal st) = closeModal st.
Proof. done. Qed.

(** X8.  Cancelling discards the form: after any series of openings of the
    form (for create or for edit) and keystrokes, which issue no request,
    closing the modal gives the state that closing it at once would have
    given. *)
Theorem closeModal_discards_form (es : list event) :
  ∀ st, forallb isFormEvent es = true →
        ∃ st', run __app_id es st = Ok (st', []) ∧
               closeModal st' = closeModal st.
Proof.
  induction es as [|e es IH]; simpl; intros st H.
  - by exists st.
  - apply andb_true_iff in H as [He Hes].
    destruct e; try discriminate He; simpl.
    + destruct (IH (openModal st) Hes) as (st' & -> & Hc).
      exists st'. by rewrite Hc, closeModal_openModal.
    + destruct (IH (handleInputChange name value st) Hes) as (st' & -> & Hc).
      exists st'. by rewrite Hc, closeModal_handleInputChange.
    + destruct (IH (startEdit student st) Hes) as (st' & -> & Hc).
      exists st'. by rewrite Hc, closeModal_startEdit.
Qed.

End FormProperties.

(** ** Creating and editing, end to end *)

Section Flows.

Variable __app_id : option string.

Lemma typeAll_frame (edits : list (string * string)) :
  ∀ st, isEditMode (typeAll edits st) = isEditMode st ∧
        userId (typeAll edits st) = userId st ∧
        error (typeAll edits st) = error st ∧
        students (typeAll edits st) = students st.
Proof.
  induction edits as [|[k v] edits IH]; intros st; [done|].
  unfold typeAll in *. simpl. destruct (IH (handleInputChange k v st)) as (-> & -> & -> & ->).
  done.
Qed.

Lemma typeAll_keeps_field (f : string) (edits : list (string * string)) :
  ∀ st, Forall (λ kv, kv.1 ≠ f) edits →
        get (currentStudent (typeAll edits st)) f = get (currentStudent st) f.
Proof.
  induction edits as [|[k v] edits IH]; intros st H; [done|].
  inversion H as [|? ? Hk Hrest]; subst. unfold typeAll in *. simpl.
  rewrite (IH _ Hrest). unfold handleInputChange, get. simpl.
  by rewrite lookup_insert_ne.
Qed.

(** X9.  The create flow.  From a state whose form is the blank template
    in create mode and in which the collection reference can be built (a
    database handle and a well-formed path), opening the form, typing a
    non-empty name, an email that the pattern accepts, a non-empty studentId
    and any phone, and pressing the button sends exactly one request: the
    insertion of the record with these four texts, and no [id], into the
    collection of the current user.  The modal stays open and the error is
    not touched until the request settles. *)
Theorem create_flow (st : AppState) (n e i ph : string) :
  is_Some (collection (db st) (studentsPath __app_id st)) →
  currentStudent st = emptyStudent → isEditMode st = false →
  n ≠ "" → i ≠ "" → looksLikeEmail e →
  ∃ st',
    run __app_id (createScript n e i ph) st =
      Ok (st', [AddDoc (studentsPath __app_id st) (filledForm n e i ph)]) ∧
    currentStudent st' = filledForm n e i ph ∧
    filledForm n e i ph !! "id" = None ∧
    isModalOpen st' = true ∧ error st' = error st ∧
    students st' = students st.
Proof.
  intros [ref Href] Hc Hm Hn Hi He.
  set (st1 := handleInputChange "phone" ph
               (handleInputChange "studentId" i
                 (handleInputChange "email" e
                   (handleInputChange "name" n (openModal st))))).
  assert (currentStudent st1 = filledForm n e i ph) as Hform.
  { unfold st1, handleInputChange, openModal, filledForm. simpl. rewrite Hc.
    unfold emptyStudent. apply map_eq. intros k.
    repeat (rewrite lookup_insert; case_decide; simplify_eq; try done).
    by rewrite !lookup_singleton_ne. }
  assert (e ≠ "") as He0.
  { intros ->. destruct He as (pre & x & y & z & post & H & _).
    symmetry in H. apply append_eq_nil in H as [_ H].
    apply append_eq_nil in H as [_ H]. discriminate H. }
  assert (validateForm st1 = (st1, true)) as Hv.
  { apply validateForm_passes; rewrite Hform; unfold filledForm, get;
      repeat (rewrite lookup_insert; case_decide; simplify_eq; try done);
      rewrite ?lookup_singleton_eq;
      simpl; rewrite ?bool_decide_eq_false_2; try done.
    by apply test_emailPattern. }
  assert (submit __app_id st1 =
            (st1, [AddDoc (studentsPath __app_id st) (filledForm n e i ph)]))
    as Hsub.
  { unfold submit, handleAddStudent.
    change (isEditMode st1) with (isEditMode st). rewrite Hm, Hv.
    change (db st1) with (db st).
    change (studentsPath __app_id st1) with (studentsPath __app_id st).
    cbn [negb]. rewrite Href, <- Hform. reflexivity. }
  exists st1. split; [|repeat split; try done].
  unfold createScript. cbn [run step]. fold st1. by rewrite Hsub.
Qed.

End Flows.

Lemma create_flow_witness :
  ∃ st',
    run None (createScript "Bo" "bo@x.com" "S2" "") (sessionWith emptyStudent) =
      Ok (st', [AddDoc "artifacts/default-student-app/users/u1/students"
                  (filledForm "Bo" "bo@x.com" "S2" "")]).
Proof.
  assert (looksLikeEmail "bo@x.com") as He
    by (apply test_emailPattern; vm_compute; reflexivity).
  assert (is_Some (collection (db (sessionWith emptyStudent))
                     (studentsPath None (sessionWith emptyStudent)))) as Hc
    by (vm_compute; by eexists).
  destruct (create_flow None (sessionWith emptyStudent) "Bo" "bo@x.com" "S2" ""
              Hc eq_refl eq_refl ltac:(discriminate) ltac:(discriminate) He)
    as (st' & Hrun & _).
  exists st'. exact Hrun.
Defined.

Section EditFlow.

Variable __app_id : option string.

Lemma typeAll_db (edits : list (string * string)) :
  ∀ st, db (typeAll edits st) = db st.
Proof.
  induction edits as [|[k v] edits IH]; intros st; [done|].
  unfold typeAll in *. simpl. by rewrite IH.
Qed.

(** X10.  The edit flow.  After a row's edit button and any keystrokes in
    fields other than [id] (the form has no such input), when the document
    reference for the [id] of the edited record can be built (a database
    handle, and an [id] that is a string naming a document of the
    collection), a form that passes validation is sent as one replacement
    request that addresses the document named by that [id], in the
    collection of the current user, and the record sent still carries that
    [id]. *)
Theorem edit_flow (student : record) (edits : list (string * string)) (st : AppState) :
  is_Some (doc (db st) (studentsPath __app_id st) (get student "id")) →
  Forall (λ kv, kv.1 ≠ "id") edits →
  snd (validateForm (typeAll edits (startEdit student st))) = true →
  step __app_id SubmitClicked (typeAll edits (startEdit student st)) =
    Ok (typeAll edits (startEdit student st),
        [UpdateDoc (studentsPath __app_id st) (get student "id")
           (currentStudent (typeAll edits (startEdit student st)))]) ∧
  get (currentStudent (typeAll edits (startEdit student st))) "id" =
    get student "id".
Proof.
  intros [ref Href] Hedits Hvalid.
  set (st1 := typeAll edits (startEdit student st)) in *.
  assert (get (currentStudent st1) "id" = get student "id") as Hid
    by (unfold st1; by rewrite typeAll_keeps_field).
  destruct (typeAll_frame edits (startEdit student st)) as (Hmode & Huser & _).
  pose proof (typeAll_db edits (startEdit student st)) as Hdb.
  fold st1 in Hmode, Huser, Hdb. simpl in Hmode, Huser, Hdb.
  assert (studentsPath __app_id st1 = studentsPath __app_id st) as Hpath
    by (unfold studentsPath; by rewrite Huser).
  destruct (validateForm st1) as [st2 b] eqn:Hv. simpl in Hvalid. subst b.
  pose proof (validateForm_true _ _ Hv) as (-> & _).
  split; [|done]. unfold step, submit, handleUpdateStudent.
  rewrite Hmode, Hv. cbn [negb]. by rewrite Hdb, Hpath, Hid, Href.
Qed.

End EditFlow.

Lemma edit_flow_witness :
  step None SubmitClicked
       (typeAll [("name", "Ana Lee")] (startEdit ana (sessionWith emptyStudent))) =
    Ok (typeAll [("name", "Ana Lee")] (startEdit ana (sessionWith emptyStudent)),
        [UpdateDoc "artifacts/default-student-app/users/u1/students" (JStr "1")
           (<["name" := JStr "Ana Lee"]> ana)]).
Proof.
  refine (proj1 (edit_flow None ana [("name", "Ana Lee")]
                   (sessionWith emptyStudent) _ _ _)).
  - vm_compute. by eexists.
  - repeat constructor. discriminate.
  - vm_compute. reflexivity.
Defined.

(** ** Documents and paths *)

(** X11.  A record materialised from a document has every field of the
    document's data with its value and, besides, an [id]: the document id,
    unless the data has a field [id] of its own, which then is the one
    kept. *)
Theorem materialize_fields (doc : QueryDocumentSnapshot) :
  (∀ k v, doc_data doc !! k = Some v → materialize doc !! k = Some v) ∧
  (∀ k, k ≠ "id" → materialize doc !! k = doc_data doc !! k) ∧
  (doc_data doc !! "id" = None →
     get (materialize doc) "id" = JStr (doc_id doc)) ∧
  (∀ v, doc_data doc !! "id" = Some v → get (materialize doc) "id" = v) ∧
  dom (materialize doc) = dom (doc_data doc) ∪ {[ "id" ]}.
Proof.
  repeat split.
  - intros k v. apply materialize_data.
  - intros k. apply materialize_other.
  - intros H. unfold get. by rewrite materialize_id.
  - intros v H. unfold get. by rewrite (materialize_data _ _ _ H).
  - unfold materialize. by rewrite dom_union_L, dom_singleton_L.
Qed.

Lemma string_length_app (a b : string) :
  String.length (a +:+ b) = (String.length a + String.length b)%nat.
Proof.
  induction a as [|c a IH]; [done|]. rewrite append_cons. simpl. by rewrite IH.
Qed.

Lemma append_inv_tail (s : string) : ∀ a b, a +:+ s = b +:+ s → a = b.
Proof.
  induction a as [|c a IH]; intros [|d b] H.
  - done.
  - apply (f_equal String.length) in H.
    rewrite append_nil_l, append_cons in H. simpl in H.
    rewrite string_length_app in H. lia.
  - apply (f_equal String.length) in H.
    rewrite append_nil_l, append_cons in H. simpl in H.
    rewrite string_length_app in H. lia.
  - rewrite !append_cons in H. injection H as -> H. f_equal. by apply IH.
Qed.

Section SystemProperties.

Variable __app_id : option string.

Lemma studentsPath_userId (st st2 : AppState) :
  userId st2 = userId st → studentsPath __app_id st2 = studentsPath __app_id st.
Proof. unfold studentsPath. by intros ->. Qed.

Lemma userId_validateForm (st : AppState) :
  userId (fst (validateForm st)) = userId st.
Proof. unfold validateForm. by repeat case_match. Qed.

Lemma studentsPath_inj (st st2 : AppState) (u u2 : string) :
  userId st = Some u → userId st2 = Some u2 →
  studentsPath __app_id st = studentsPath __app_id st2 → u = u2.
Proof.
  unfold studentsPath. intros -> -> H.
  do 3 apply (inj (String.append _)) in H.
  by apply append_inv_tail in H.
Qed.

Lemma step_request_path
    (e : event) (st st' : AppState) (reqs : list request) (r : request) (p : string) :
  step __app_id e st = Ok (st', reqs) → r ∈ reqs → pathOf r = Some p →
  p = studentsPath __app_id st.
Proof.
  intros H Hr Hp. pose proof (userId_validateForm st) as Hv.
  destruct e; simpl in H;
    unfold initEffect, authStateChanged, dataEffect, searchEffect, submit,
      handleAddStudent, handleUpdateStudent, handleDeleteStudent,
      mbind, result_bind in H;
    repeat case_match; simplify_eq/=;
    repeat (apply elem_of_cons in Hr as [-> | Hr]; simplify_eq/=);
    try (by apply elem_of_nil in Hr); try done.
  all: by apply studentsPath_userId.
Qed.

(** X12.  Every request that names a collection (the subscription, an
    insertion, a replacement, a removal) names the collection of the user
    of the state it is issued in; no request issued for one signed-in user
    addresses the collection of another. *)
Theorem requests_stay_in_partition
    (e : event) (st st' : AppState) (reqs : list request) (r : request) (p : string) :
  step __app_id e st = Ok (st', reqs) → r ∈ reqs → pathOf r = Some p →
  p = studentsPath __app_id st ∧
  ∀ (other : AppState) (u u' : string),
    userId st = Some u → userId other = Some u' → u' ≠ u →
    p ≠ studentsPath __app_id other.
Proof.
  intros H Hr Hp.
  assert (p = studentsPath __app_id st) as -> by by eapply step_request_path.
  split; [done|]. intros other u u' Hu Hu' Hne Heq.
  apply Hne. symmetry. by eapply studentsPath_inj.
Qed.

(** X13.  The form can be submitted before the sign-in has come through:
    nothing in the handler looks at the user id.  Once the database handle
    is there (so that the collection reference can be built), a valid record
    goes to the collection spelled with the text [null] for the user; the
    component never subscribes to that collection unless a user id is
    literally [null], and in the state of the submit it does not subscribe
    at all. *)
Theorem submit_before_sign_in (st : AppState) :
  is_Some (collection (db st) (studentsPath __app_id st)) →
  userId st = None → isEditMode st = false →
  snd (validateForm st) = true →
  submit __app_id st =
    (st, [AddDoc ("artifacts/" +:+ appId __app_id +:+ "/users/null/students")
            (currentStudent st)]) ∧
  dataEffect __app_id st = Ok (st, []) ∧
  ∀ st2 st2' p,
    dataEffect __app_id st2 = Ok (st2', [OnSnapshot p]) →
    p = "artifacts/" +:+ appId __app_id +:+ "/users/null/students" →
    userId st2 = Some "null".
Proof.
  intros [ref Href] Hu Hm Hvalid.
  destruct (validateForm st) as [st1 b] eqn:Hv. simpl in Hvalid. subst b.
  pose proof (validateForm_true _ _ Hv) as (-> & _).
  split; [|split].
  - unfold submit, handleAddStudent. rewrite Hm, Hv. cbn [negb].
    rewrite Href. unfold studentsPath. by rewrite Hu.
  - unfold dataEffect. rewrite Hu. by destruct (db st).
  - intros st2 st2' p H Hp. unfold dataEffect in H.
    destruct (db st2) as [f|]; [|inversion H].
    destruct (userId st2) as [u|] eqn:Hu2; [|inversion H].
    case_bool_decide; [inversion H|].
    destruct (collection (Some f) (studentsPath __app_id st2)); [|inversion H].
    injection H as Hst Hpath.
    rewrite Hp in Hpath. unfold studentsPath in Hpath. rewrite Hu2 in Hpath.
    change ("artifacts/" +:+ appId __app_id +:+ "/users/null/students")
      with ("artifacts/" +:+ appId __app_id +:+ "/users/" +:+ "null" +:+ "/students")
      in Hpath.
    do 3 apply (inj (String.append _)) in Hpath.
    apply append_inv_tail in Hpath. by subst.
Qed.

(** X14.  The component subscribes only from the data effect, and only
    when it holds a database handle and a non-empty user id; it then turns
    the loading indicator on. *)
Theorem subscription_requires_session
    (e : event) (st st' : AppState) (reqs : list request) (p : string) :
  step __app_id e st = Ok (st', reqs) → OnSnapshot p ∈ reqs →
  e = DataEffect ∧ is_Some (db st) ∧
  (∃ u, userId st = Some u ∧ u ≠ "") ∧ isLoading st' = true.
Proof.
  intros H Hr.
  destruct e; simpl in H;
    unfold initEffect, authStateChanged, dataEffect, searchEffect, submit,
      handleAddStudent, handleUpdateStudent, handleDeleteStudent,
      mbind, result_bind in H;
    repeat case_match; simplify_eq/=;
    repeat (apply elem_of_cons in Hr as [Hr | Hr]; simplify_eq/=);
    try (by apply elem_of_nil in Hr).
  repeat split; eauto.
  eexists; split; [done|]. by case_bool_decide.
Qed.

(** X15.  An error message, once set, is taken away only by closing the
    modal (the close and cancel buttons, or a create or update that has
    succeeded); every other callback keeps a message, possibly another
    one. *)
Theorem error_cleared_only_by_closeModal
    (e : event) (st st' : AppState) (reqs : list request) :
  step __app_id e st = Ok (st', reqs) →
  is_Some (error st) → error st' = None → closesModal e = true.
Proof.
  intros H [m Hm] Hnone.
  destruct e; simpl in H;
    unfold initEffect, authStateChanged, dataEffect, searchEffect, submit,
      handleAddStudent, handleUpdateStudent, handleDeleteStudent,
      validateForm, addStudentSettled, updateStudentSettled,
      deleteStudentSettled, mbind, result_bind in H;
    repeat case_match; simplify_eq/=; congruence.
Qed.

(** X16.  The loading indicator, once on, goes off only when a snapshot
    arrives, when the subscription reports a failure, or when the
    initialisation throws. *)
Theorem loading_ends_only_on_answer
    (e : event) (st st' : AppState) (reqs : list request) :
  step __app_id e st = Ok (st', reqs) →
  isLoading st = true → isLoading st' = false →
  (∃ docs, e = SnapshotNext docs) ∨ e = SnapshotError ∨ e = Mounted true.
Proof.
  intros H Hl Hl'.
  destruct e; simpl in H;
    unfold initEffect, authStateChanged, dataEffect, searchEffect, submit,
      handleAddStudent, handleUpdateStudent, handleDeleteStudent,
      validateForm, addStudentSettled, updateStudentSettled,
      deleteStudentSettled, mbind, result_bind in H;
    repeat case_match; simplify_eq/=; eauto; congruence.
Qed.

End SystemProperties.

Section TraceProperties.

Variable __app_id : option string.

Lemma step_mutation_count (e : event) (st st' : AppState) (reqs : list request) :
  step __app_id e st = Ok (st', reqs) →
  (length (List.filter isMutation reqs) ≤ (if isMutatingClick e then 1 else 0))%nat.
Proof.
  intros H.
  destruct e; simpl in H;
    unfold initEffect, authStateChanged, dataEffect, searchEffect, submit,
      handleAddStudent, handleUpdateStudent, handleDeleteStudent,
      mbind, result_bind in H;
    repeat case_match; simplify_eq/=; lia.
Qed.

(** X17.  Along any sequence of events the component sends at most one
    store mutation per press of the submit button or of a delete button:
    nothing is sent twice and nothing is sent again after a failure. *)
Theorem one_mutation_per_click (es : list event) :
  ∀ (st st' : AppState) (reqs : list request),
    run __app_id es st = Ok (st', reqs) →
    (length (List.filter isMutation reqs)
     ≤ length (List.filter isMutatingClick es))%nat.
Proof.
  induction es as [|e es IH]; simpl; intros st st' reqs H.
  - by simplify_eq.
  - destruct (step __app_id e st) as [[st1 reqs1]|] eqn:Hstep; [|done].
    destruct (run __app_id es st1) as [[st2 reqs2]|] eqn:Hrun; [|done].
    simplify_eq. rewrite List.filter_app, length_app.
    pose proof (step_mutation_count _ _ _ _ Hstep) as H1.
    pose proof (IH _ _ _ Hrun) as H2.
    destruct (isMutatingClick e); simpl; lia.
Qed.

(** X18.  Whenever the modal is closed, the form holds the blank template
    and the component is in create mode; so the button "Add Student" always
    opens an empty form whose submit button creates. *)
Theorem closed_modal_has_blank_form (st : AppState) :
  reachable __app_id st → isModalOpen st = false →
  isEditMode st = false ∧ currentStudent st = emptyStudent ∧
  currentStudent (openModal st) = emptyStudent ∧
  submit __app_id (openModal st) = handleAddStudent __app_id (openModal st).
Proof.
  intros Hreach.
  assert (isModalOpen st = false →
          isEditMode st = false ∧ currentStudent st = emptyStudent) as Hinv.
  { induction Hreach as [|e st st' reqs _ IH Hen Hstep]; [done|].
    pose proof (validateForm_true st) as Hv.
    destruct e; simpl in Hstep, Hen;
      unfold initEffect, authStateChanged, dataEffect, searchEffect, submit,
        handleAddStudent, handleUpdateStudent, handleDeleteStudent,
        validateForm, addStudentSettled, updateStudentSettled,
        deleteStudentSettled, mbind, result_bind in Hstep;
      repeat case_match; simplify_eq/=; try done; try (by intros ?; apply IH);
      intros ?; try apply andb_true_iff in Hen as [? ?]; congruence. }
  intros Hclosed. destruct (Hinv Hclosed) as [Hm Hc].
  repeat split; try done. unfold submit. simpl. by rewrite Hm.
Qed.

(** X19.  With a confirmation dialog installed, the delete handler asks
    first.  It sends the removal of the given identifier exactly when the
    answer is truthy and the document reference can be built (a database
    handle and a string identifier naming a document of the collection),
    and it sends no other mutation.  The state is left as it is, except
    that a truthy answer followed by a reference that cannot be built sets
    the error. *)
Theorem delete_asks_first (ask : string → jsval) (id : jsval) (st : AppState) :
  head (snd (handleDeleteStudent __app_id (Some ask) id st)) =
    Some (CustomConfirm "Are you sure you want to delete this student?") ∧
  (DeleteDoc (studentsPath __app_id st) id
     ∈ snd (handleDeleteStudent __app_id (Some ask) id st) ↔
   truthy (ask "Are you sure you want to delete this student?") = true ∧
   is_Some (doc (db st) (studentsPath __app_id st) id)) ∧
  (∀ r, r ∈ snd (handleDeleteStudent __app_id (Some ask) id st) →
        isMutation r = true → r = DeleteDoc (studentsPath __app_id st) id) ∧
  (truthy (ask "Are you sure you want to delete this student?") = false ∨
   is_Some (doc (db st) (studentsPath __app_id st) id) →
   fst (handleDeleteStudent __app_id (Some ask) id st) = st) ∧
  (truthy (ask "Are you sure you want to delete this student?") = true →
   doc (db st) (studentsPath __app_id st) id = None →
   fst (handleDeleteStudent __app_id (Some ask) id st) =
     setError (Some "Failed to delete student. Please try again.") st).
Proof.
  assert (∀ r l, r ∈ CustomConfirm confirmMessage :: l →
                 isMutation r = true → r ∈ l) as Hskip.
  { intros r l Hr Hm. apply elem_of_cons in Hr as [-> | Hr]; done. }
  assert (∀ r : request, r ∈ [DeleteDoc (studentsPath __app_id st) id] →
                         r = DeleteDoc (studentsPath __app_id st) id) as Hone.
  { intros r Hr. apply elem_of_cons in Hr as [-> | Hr]; [done|].
    by apply elem_of_nil in Hr. }
  unfold handleDeleteStudent. fold confirmMessage.
  destruct (truthy (ask confirmMessage));
    destruct (doc (db st) (studentsPath __app_id st) id) as [ref|];
    simpl; (split; [done|]); (split; [split|split; [|split]]).
  - intros _. split; [done | by eexists].
  - intros _. apply elem_of_cons. right. apply elem_of_cons. by left.
  - intros r Hr Hm. apply Hone. by apply Hskip.
  - done.
  - done.
  - intros Hr. apply Hskip in Hr; [|done]. by apply elem_of_nil in Hr.
  - by intros [_ [? ?]].
  - intros r Hr Hm. apply Hskip in Hr; [|done]. by apply elem_of_nil in Hr.
  - by intros [? | [? ?]].
  - done.
  - intros Hr. apply Hskip in Hr; [|done]. by apply elem_of_nil in Hr.
  - by intros [? _].
  - intros r Hr Hm. apply Hskip in Hr; [|done]. by apply elem_of_nil in Hr.
  - done.
  - done.
  - intros Hr. apply Hskip in Hr; [|done]. by apply elem_of_nil in Hr.
  - by intros [? _].
  - intros r Hr Hm. apply Hskip in Hr; [|done]. by apply elem_of_nil in Hr.
  - done.
  - done.
Qed.

(** X20.  The error banner lives inside the modal.  A failure reported
    while the modal is closed (the subscription failing, the sign-in
    failing, a removal failing) puts nothing on screen; the message shows
    up when the form is next opened, for create or for edit. *)
Theorem background_errors_hidden (st : AppState) (student : record) :
  isModalOpen st = false →
  errorBanner (snapshotError st) = None ∧
  errorBanner (signInRejected st) = None ∧
  errorBanner (deleteStudentSettled false st) = None ∧
  errorBanner (openModal (snapshotError st)) =
    Some "Failed to fetch student data." ∧
  errorBanner (openModal (signInRejected st)) =
    Some "Authentication failed. Please refresh the page." ∧
  errorBanner (startEdit student (deleteStudentSettled false st)) =
    Some "Failed to delete student. Please try again.".
Proof.
  intros H. unfold errorBanner. simpl. rewrite H. repeat split.
Qed.

(** X21.  Once the search effect has run, the notice "No Matching
    Students" shows exactly when the record list is not empty and the
    callback answers true on none of its records; it never shows together
    with "No Students Found". *)
Theorem noMatchingNotice_after_search (st st' : AppState) :
  searchEffect st = Ok st' →
  (noMatchingNotice st' = true ↔
     students st ≠ [] ∧
     ∀ r, r ∈ students st →
          studentMatches (toLowerCase (searchTerm st)) r ≠ Ok true) ∧
  (mainBody st' = NoStudentsFound → noMatchingNotice st' = false).
Proof.
  unfold searchEffect, mbind, result_bind.
  destruct (searchFilter (students st) (searchTerm st)) as [out|] eqn:Hout;
    [|done].
  intros H. simplify_eq. unfold noMatchingNotice, mainBody. simpl.
  pose proof (filterM_elem _ _ _ Hout) as Helem. split.
  - rewrite andb_true_iff, Nat.eqb_eq, Nat.ltb_lt. split.
    + intros [Hlen Hpos]. split.
      * intros Heq. rewrite Heq in Hpos. simpl in Hpos. lia.
      * intros r Hr Hm. destruct out; [|done].
        assert (r ∈ @nil record) as Habs by (apply Helem; done).
        by apply elem_of_nil in Habs.
    + intros [Hne Hall]. split.
      * destruct out as [|r out]; [done|]. exfalso.
        assert (r ∈ r :: out) as Hr by (apply elem_of_cons; by left).
        apply Helem in Hr as [Hr Hm]. by apply (Hall r).
      * destruct (students st); [done | simpl; lia].
  - destruct (isLoading st); [done|].
    destruct (length (students st) =? 0)%nat eqn:Hz; [|done].
    intros _. apply Nat.eqb_eq in Hz. rewrite Hz. by rewrite andb_false_r.
Qed.

End TraceProperties.

(** ** The further properties at concrete inputs *)

Lemma emailPattern_unanchored_witness :
  test emailPattern "a@b.c" = true ∧
  test emailPattern ("x " +:+ "a@b.c" +:+ " y") = true.
Proof.
  assert (test emailPattern "a@b.c" = true) as H by reflexivity.
  split; [exact H|]. exact (emailPattern_unanchored "x " "a@b.c" " y" H).
Defined.

Lemma closeModal_discards_form_witness :
  ∃ st', run None [AddClicked; InputChanged "name" "Bo"; EditClicked ana]
             initialState = Ok (st', []) ∧
         closeModal st' = closeModal initialState.
Proof.
  exact (closeModal_discards_form None
           [AddClicked; InputChanged "name" "Bo"; EditClicked ana]
           initialState eq_refl).
Defined.

Lemma requests_stay_in_partition_witness :
  "artifacts/default-student-app/users/u1/students" =
    studentsPath None (sessionWith ana).
Proof.
  refine (proj1 (requests_stay_in_partition None SubmitClicked
                   (sessionWith ana) (sessionWith ana)
                   [AddDoc "artifacts/default-student-app/users/u1/students" ana]
                   (AddDoc "artifacts/default-student-app/users/u1/students" ana)
                   "artifacts/default-student-app/users/u1/students" _ _ _)).
  - vm_compute. reflexivity.
  - apply elem_of_cons. by left.
  - reflexivity.
Defined.

Lemma submit_before_sign_in_witness :
  userId (setCurrentStudent ana (fst (initEffect false initialState))) = None ∧
  submit None (setCurrentStudent ana (fst (initEffect false initialState))) =
    (setCurrentStudent ana (fst (initEffect false initialState)),
     [AddDoc ("artifacts/" +:+ appId None +:+ "/users/null/students") ana]).
Proof.
  split; [reflexivity|].
  refine (proj1 (submit_before_sign_in None
                   (setCurrentStudent ana (fst (initEffect false initialState)))
                   _ eq_refl eq_refl _)).
  - vm_compute. by eexists.
  - vm_compute. reflexivity.
Defined.

Lemma subscription_requires_session_witness :
  is_Some (db (sessionWith ana)).
Proof.
  refine (proj1 (proj2 (subscription_requires_session None DataEffect
            (sessionWith ana) (setIsLoading true (sessionWith ana))
            [OnSnapshot "artifacts/default-student-app/users/u1/students"]
            "artifacts/default-student-app/users/u1/students" _ _))).
  - vm_compute. reflexivity.
  - apply elem_of_cons. by left.
Defined.

Lemma error_cleared_only_by_closeModal_witness :
  closesModal (AddSettled true) = true.
Proof.
  refine (error_cleared_only_by_closeModal None (AddSettled true)
            (signInRejected (sessionWith ana))
            (closeModal (signInRejected (sessionWith ana))) [] _ _ _).
  - reflexivity.
  - by eexists.
  - reflexivity.
Defined.

Lemma loading_ends_only_on_answer_witness :
  (∃ docs, SnapshotNext [mkDoc "1" nameOnly] = SnapshotNext docs) ∨
  SnapshotNext [mkDoc "1" nameOnly] = SnapshotError ∨
  SnapshotNext [mkDoc "1" nameOnly] = Mounted true.
Proof.
  refine (loading_ends_only_on_answer None (SnapshotNext [mkDoc "1" nameOnly])
            initialState (snapshotNext [mkDoc "1" nameOnly] initialState) []
            _ _ _); reflexivity.
Defined.

Lemma one_mutation_per_click_witness :
  (length (List.filter isMutation
             [AddDoc "artifacts/default-student-app/users/u1/students" ana])
   ≤ length (List.filter isMutatingClick [SubmitClicked; AddSettled false]))%nat.
Proof.
  refine (one_mutation_per_click None [SubmitClicked; AddSettled false]
            (sessionWith ana)
            (addStudentSettled false (sessionWith ana)) _ _).
  vm_compute. reflexivity.
Defined.

Lemma closed_modal_has_blank_form_witness :
  currentStudent
    (openModal (closeModal (handleInputChange "name" "Bo" (openModal initialState))))
  = emptyStudent.
Proof.
  refine (proj1 (proj2 (proj2 (closed_modal_has_blank_form None
            (closeModal (handleInputChange "name" "Bo" (openModal initialState)))
            _ eq_refl)))).
  apply (reachable_step None CloseClicked
           (handleInputChange "name" "Bo" (openModal initialState)) _ []);
    [|reflexivity|reflexivity].
  apply (reachable_step None (InputChanged "name" "Bo")
           (openModal initialState) _ []);
    [|vm_compute; reflexivity|reflexivity].
  apply (reachable_step None AddClicked initialState _ []);
    [|reflexivity|reflexivity].
  apply reachable_init.
Defined.

Lemma background_errors_hidden_witness :
  errorBanner (snapshotError initialState) = None ∧
  errorBanner (openModal (snapshotError initialState)) =
    Some "Failed to fetch student data.".
Proof.
  pose proof (background_errors_hidden initialState ana eq_refl)
    as (H1 & _ & _ & H2 & _).
  exact (conj H1 H2).
Defined.

Lemma noMatchingNotice_after_search_witness :
  noMatchingNotice (setFilteredStudents [] (setSearchTerm "zzz" (sessionWith ana)))
    = true.
Proof.
  assert (searchEffect (setSearchTerm "zzz" (sessionWith ana)) =
          Ok (setFilteredStudents [] (setSearchTerm "zzz" (sessionWith ana))))
    as H by (vm_compute; reflexivity).
  apply (proj1 (noMatchingNotice_after_search _ _ H)).
  split; [discriminate|]. intros r Hr.
  apply elem_of_cons in Hr as [-> | Hr]; [vm_compute; discriminate|].
  by apply elem_of_nil in Hr.
Defined.

Lemma searchFilter_agrees_on_lowercase_ids_witness :
  searchFilter [lowerId] "S-2" = Ok (specSearch [lowerId] "S-2") ∧
  specSearch [lowerId] "S-2" = [lowerId].
Proof.
  split; [|vm_compute; reflexivity].
  apply (searchFilter_agrees_on_lowercase_ids [lowerId] "S-2").
  repeat constructor; try (eexists; vm_compute; reflexivity).
  exists "s-200". split; vm_compute; reflexivity.
Defined.

Section Writers.

Variable __app_id : option string.

(** X23.  Who writes which cell: the rows on screen are written by the
    search effect only, the search term by the search box only, the user id
    by the authentication callback only (when it reports a user), and the
    database and authentication handles by the initialisation only. *)
Theorem single_writers (e : event) (st st' : AppState) (reqs : list request) :
  step __app_id e st = Ok (st', reqs) →
  (filteredStudents st' ≠ filteredStudents st → e = SearchEffect) ∧
  (searchTerm st' ≠ searchTerm st → ∃ v, e = SearchInput v) ∧
  (userId st' ≠ userId st → ∃ uid, e = AuthState (Some uid)) ∧
  (db st' ≠ db st ∨ auth st' ≠ auth st → e = Mounted false).
Proof.
  intros H.
  destruct e; simpl in H;
    unfold initEffect, authStateChanged, dataEffect, searchEffect, submit,
      handleAddStudent, handleUpdateStudent, handleDeleteStudent,
      validateForm, addStudentSettled, updateStudentSettled,
      deleteStudentSettled, mbind, result_bind in H;
    repeat case_match; simplify_eq/=;
    repeat split; try done; eauto; intros [? | ?]; done.
Qed.

End Writers.

Lemma single_writers_witness :
  ∃ v, SearchInput "an" = SearchInput v.
Proof.
  apply (proj1 (proj2 (single_writers None (SearchInput "an") initialState
                         (setSearchTerm "an" initialState) [] eq_refl))).
  simpl. discriminate.
Defined.

(** ** When the reference cannot be built *)

Section ReferenceFailures.

Variable __app_id : option string.

(** A valid form whose collection reference cannot be built (no database
    handle, a malformed path) is not sent: the [catch] sets the error. *)
Lemma handleAddStudent_throws (st : AppState) :
  snd (validateForm st) = true →
  collection (db st) (studentsPath __app_id st) = None →
  handleAddStudent __app_id st =
    (setError (Some "Failed to add student. Please try again.") st, []).
Proof.
  intros Hvalid Hc. destruct (validateForm st) as [st1 b] eqn:Hv.
  simpl in Hvalid. subst b. pose proof (validateForm_true _ _ Hv) as (-> & _).
  unfold handleAddStudent. by rewrite Hv, Hc.
Qed.

(** The same for an update whose document reference cannot be built (no
    database handle, an [id] that is absent or not a string). *)
Lemma handleUpdateStudent_throws (st : AppState) :
  snd (validateForm st) = true →
  doc (db st) (studentsPath __app_id st) (get (currentStudent st) "id") = None →
  handleUpdateStudent __app_id st =
    (setError (Some "Failed to update student. Please try again.") st, []).
Proof.
  intros Hvalid Hc. destruct (validateForm st) as [st1 b] eqn:Hv.
  simpl in Hvalid. subst b. pose proof (validateForm_true _ _ Hv) as (-> & _).
  unfold handleUpdateStudent. by rewrite Hv, Hc.
Qed.

(** No handle, no reference; and no document reference for an identifier
    that is not a string. *)
Lemma no_reference_without_database (path : string) (id : jsval) :
  collection None path = None ∧ doc None path id = None.
Proof. done. Qed.

Lemma no_document_for_non_string (d : option Firestore) (path : string) (id : jsval) :
  (∀ i, id ≠ JStr i) → doc d path id = None.
Proof.
  intros H. unfold doc. destruct d; [|done].
  destruct id as [| | | |i]; try done. by destruct (H i).
Qed.

End ReferenceFailures.
